(** * auto_rsync: the watcher / worker coordination of [auto_rsync/__init__.py]

    A shallow embedding of the program: the two [threading.Event] cells, the
    event handler, the worker thread's loop and the main flow are modelled as
    one transition system whose steps are the statements of the source, so
    that every interleaving of the threads is a list of actions. *)

From Stdlib Require Import Bool Arith ZArith Lia List String Ascii DecimalString.
Import ListNotations.
Local Open Scope string_scope.
Local Open Scope nat_scope.

(** ** Library primitives the program calls *)

(** [threading.Event]: a flag with [set], [clear] and [is_set]; each method
    takes the event's internal lock, so each is one atomic step. *)
Module Event.

Record t := mk { flag : bool }.

Definition new : t := mk false.
Definition set (e : t) : t := mk true.
Definition clear (e : t) : t := mk false.
Definition is_set (e : t) : bool := flag e.

End Event.

(** [str.strip()] and [sep.join(...)]. *)
Module PyStr.

(** The characters [str.strip()] removes: tab, line feed, vertical tab, form
    feed, carriage return and space. *)
Definition isspace (c : ascii) : bool :=
  let n := nat_of_ascii c in
  ((9 <=? n) && (n <=? 13)) || (n =? 32).

Fixpoint lstrip (s : string) : string :=
  match s with
  | EmptyString => EmptyString
  | String c r => if isspace c then lstrip r else s
  end.

Fixpoint rstrip (s : string) : string :=
  match s with
  | EmptyString => EmptyString
  | String c r =>
      match rstrip r with
      | EmptyString => if isspace c then EmptyString else String c EmptyString
      | r' => String c r'
      end
  end.

Definition strip (s : string) : string := rstrip (lstrip s).

Definition join (sep : string) (l : list string) : string := String.concat sep l.

(** The [%d] conversion of a natural number. *)
Definition of_nat (n : nat) : string := NilZero.string_of_uint (Nat.to_uint n).

(** Truth value of a string: only the empty string is false. *)
Definition truthy (s : string) : bool :=
  match s with EmptyString => false | _ => true end.

End PyStr.

(** [shlex.split(s)]: the POSIX-mode lexer with [whitespace_split] on and no
    comment characters, following [shlex.read_token]. *)
Module Shlex.

Definition whitespace (c : ascii) : bool :=
  let n := nat_of_ascii c in
  (n =? 32) || (n =? 9) || (n =? 13) || (n =? 10).

Definition quote (c : ascii) : bool :=
  let n := nat_of_ascii c in (n =? 39) || (n =? 34).

Definition dquote : ascii := ascii_of_nat 34.
Definition escape : ascii := ascii_of_nat 92.

Definition is_escape (c : ascii) : bool := nat_of_ascii c =? 92.

(** The lexer's [state] attribute: [' '], ['a'], a quote character, or the
    escape character together with [escapedstate] (['a'] is [None]). *)
Inductive lstate :=
| Lws
| Lword
| Lquote (q : ascii)
| Lescape (back : option ascii).

Definition snoc (tok : string) (c : ascii) : string := tok ++ String c EmptyString.

(** [read st quoted tok inp]: the tokens produced from the unread input [inp]
    when the lexer is in state [st] with the partial token [tok]; [None] is
    the [ValueError] of an unclosed quotation or a dangling escape. *)
Fixpoint read (st : lstate) (quoted : bool) (tok : string) (inp : string)
  : option (list string) :=
  match inp with
  | EmptyString =>
      match st with
      | Lws | Lword =>
          if PyStr.truthy tok || quoted then Some [tok] else Some []
      | Lquote _ => None
      | Lescape _ => None
      end
  | String c rest =>
      match st with
      | Lws =>
          if whitespace c then
            if PyStr.truthy tok || quoted
            then option_map (cons tok) (read Lws false EmptyString rest)
            else read Lws quoted tok rest
          else if is_escape c then read (Lescape None) quoted tok rest
          else if quote c then read (Lquote c) quoted tok rest
          else read Lword quoted (String c EmptyString) rest
      | Lquote q =>
          if Ascii.eqb c q then read Lword true tok rest
          else if is_escape c && Ascii.eqb q dquote
               then read (Lescape (Some q)) true tok rest
               else read (Lquote q) true (snoc tok c) rest
      | Lescape back =>
          match back with
          | Some q =>
              let tok' :=
                if negb (Ascii.eqb c escape) && negb (Ascii.eqb c q)
                then snoc tok escape else tok in
              read (Lquote q) quoted (snoc tok' c) rest
          | None => read Lword quoted (snoc tok c) rest
          end
      | Lword =>
          if whitespace c then
            if PyStr.truthy tok || quoted
            then option_map (cons tok) (read Lws false EmptyString rest)
            else read Lws quoted tok rest
          else if quote c then read (Lquote c) quoted tok rest
          else if is_escape c then read (Lescape None) quoted tok rest
          else read Lword quoted (snoc tok c) rest
      end
  end.

Definition split (s : string) : option (list string) :=
  read Lws false EmptyString s.

End Shlex.

(** ** The program *)

(** [class COLORS]: the terminal escape sequences. *)
Module COLORS.

Definition ESC : string := String (ascii_of_nat 27) EmptyString.

Definition PURPLE : string := ESC ++ "[95m".
Definition BLUE : string := ESC ++ "[94m".
Definition GREEN : string := ESC ++ "[92m".
Definition YELLOW : string := ESC ++ "[93m".
Definition RED : string := ESC ++ "[91m".
Definition BOLD : string := ESC ++ "[1m".
Definition UNDERLINE : string := ESC ++ "[4m".
Definition END : string := ESC ++ "[0m".

End COLORS.

(** A notification of the watch mechanism; [dest_path] is read for moves
    only. *)
Inductive event_type := Moved | Created | Deleted | Modified.

Record fs_event := mkEvent {
  event_type_of : event_type;
  is_directory : bool;
  src_path : string;
  dest_path : string
}.

Definition _get_what (event : fs_event) : string :=
  if is_directory event then "directory" else "file".

(** The two signals [main] installs a handler for, with their numbers. *)
Inductive signal := SIGTERM | SIGINT.

Definition signum (sg : signal) : nat :=
  match sg with SIGTERM => 15 | SIGINT => 2 end.

(** The command line arguments of [main], after click has parsed them. *)
Record config := mkConfig {
  local_path : string;
  remote_path : string;
  rsync_options : string;
  rsync_file_opts : option string
}.

(** What the program reads from its environment at startup: the exit status
    of [which rsync] and the lines of the files it may open ([None]: the file
    cannot be opened). *)
Record environment := mkEnv {
  which_status : Z;
  file_lines : string -> option (list string)
}.

Inductive exn := ShutdownException | IOError.

(** Control points of [main], named by the statement about to run. *)
Inductive main_pc :=
| M_which                 (* line 155 *)
| M_print_missing         (* lines 156-160 *)
| M_sys_exit              (* line 161 *)
| M_file_opts             (* lines 163-166 *)
| M_events                (* lines 168-169 *)
| M_signal_term           (* line 178 *)
| M_signal_int            (* line 179 *)
| M_thread_new            (* lines 181-182 *)
| M_thread_start          (* line 183 *)
| M_handler_new           (* lines 185-186 *)
| M_observer_new          (* line 187 *)
| M_observer_schedule     (* line 188 *)
| M_observer_start        (* line 189 *)
| M_sleep                 (* lines 190-192, inside the try block *)
| M_shutdown_set          (* line 194 *)
| M_observer_stop         (* line 195 *)
| M_observer_join         (* line 196 *)
| M_returned              (* main returned *)
| M_exited (status : Z)   (* sys.exit(status) *)
| M_uncaught (e : exn)    (* an exception left main *)
| M_default_signal (sg : signal). (* no handler installed: default disposition *)

(** Control points of [RSyncThread.run]. *)
Inductive worker_pc :=
| W_unstarted             (* start() not called yet *)
| W_outer                 (* line 117: the outer loop test *)
| W_inner_shutdown        (* line 118: shutdown_event.is_set() *)
| W_inner_rsync           (* line 118: rsync_event.is_set() *)
| W_sleep                 (* line 119 *)
| W_clear                 (* line 121 *)
| W_log_rsyncing          (* line 122 *)
| W_log_cmd               (* lines 124-128 *)
| W_call                  (* lines 130-136: shlex.split and the call starts *)
| W_running               (* the external command is running *)
| W_done                  (* run() returned *)
| W_crashed.              (* an exception left run() *)

Inductive observer_state :=
| O_none | O_created | O_scheduled | O_started | O_stopped | O_joined.

(** The state of the process.  [raises] counts the calls of
    [rsync_event.set()]; [calls] lists the argument vectors given to
    [subprocess.call] by the worker, oldest first. *)
Record state := mkState {
  shutdown_event : Event.t;
  rsync_event : Event.t;
  mpc : main_pc;
  wpc : worker_pc;
  main_options : string;
  thread_options : string;
  sigterm_installed : bool;
  sigint_installed : bool;
  observer : observer_state;
  printed : list string;
  logged : list string;
  calls : list (list string);
  raises : nat
}.

Definition init (cfg : config) : state :=
  {| shutdown_event := Event.new;
     rsync_event := Event.new;
     mpc := M_which;
     wpc := W_unstarted;
     main_options := rsync_options cfg;
     thread_options := EmptyString;
     sigterm_installed := false;
     sigint_installed := false;
     observer := O_none;
     printed := [];
     logged := [];
     calls := [];
     raises := 0 |}.

Definition set_shutdown_event (e : Event.t) (s : state) : state :=
  mkState e (rsync_event s) (mpc s) (wpc s) (main_options s) (thread_options s)
    (sigterm_installed s) (sigint_installed s) (observer s) (printed s)
    (logged s) (calls s) (raises s).

Definition set_rsync_event (e : Event.t) (s : state) : state :=
  mkState (shutdown_event s) e (mpc s) (wpc s) (main_options s)
    (thread_options s) (sigterm_installed s) (sigint_installed s) (observer s)
    (printed s) (logged s) (calls s) (raises s).

Definition set_mpc (p : main_pc) (s : state) : state :=
  mkState (shutdown_event s) (rsync_event s) p (wpc s) (main_options s)
    (thread_options s) (sigterm_installed s) (sigint_installed s) (observer s)
    (printed s) (logged s) (calls s) (raises s).

Definition set_wpc (p : worker_pc) (s : state) : state :=
  mkState (shutdown_event s) (rsync_event s) (mpc s) p (main_options s)
    (thread_options s) (sigterm_installed s) (sigint_installed s) (observer s)
    (printed s) (logged s) (calls s) (raises s).

Definition set_main_options (o : string) (s : state) : state :=
  mkState (shutdown_event s) (rsync_event s) (mpc s) (wpc s) o
    (thread_options s) (sigterm_installed s) (sigint_installed s) (observer s)
    (printed s) (logged s) (calls s) (raises s).

Definition set_thread_options (o : string) (s : state) : state :=
  mkState (shutdown_event s) (rsync_event s) (mpc s) (wpc s) (main_options s)
    o (sigterm_installed s) (sigint_installed s) (observer s) (printed s)
    (logged s) (calls s) (raises s).

Definition install (sg : signal) (s : state) : state :=
  mkState (shutdown_event s) (rsync_event s) (mpc s) (wpc s) (main_options s)
    (thread_options s)
    (match sg with SIGTERM => true | SIGINT => sigterm_installed s end)
    (match sg with SIGINT => true | SIGTERM => sigint_installed s end)
    (observer s) (printed s) (logged s) (calls s) (raises s).

Definition installed (sg : signal) (s : state) : bool :=
  match sg with
  | SIGTERM => sigterm_installed s
  | SIGINT => sigint_installed s
  end.

Definition set_observer (o : observer_state) (s : state) : state :=
  mkState (shutdown_event s) (rsync_event s) (mpc s) (wpc s) (main_options s)
    (thread_options s) (sigterm_installed s) (sigint_installed s) o
    (printed s) (logged s) (calls s) (raises s).

(** [print(msg)] *)
Definition print (msg : string) (s : state) : state :=
  mkState (shutdown_event s) (rsync_event s) (mpc s) (wpc s) (main_options s)
    (thread_options s) (sigterm_installed s) (sigint_installed s) (observer s)
    (printed s ++ [msg]) (logged s) (calls s) (raises s).

(** The [log] static method of both classes:
    [logging.info('{}{}{}'.format(color, log, COLORS.END))]. *)
Definition colored (color msg : string) : string := color ++ msg ++ COLORS.END.

Definition log (msg color : string) (s : state) : state :=
  mkState (shutdown_event s) (rsync_event s) (mpc s) (wpc s) (main_options s)
    (thread_options s) (sigterm_installed s) (sigint_installed s) (observer s)
    (printed s) (logged s ++ [colored color msg]) (calls s)
    (raises s).

Definition push_call (argv : list string) (s : state) : state :=
  mkState (shutdown_event s) (rsync_event s) (mpc s) (wpc s) (main_options s)
    (thread_options s) (sigterm_installed s) (sigint_installed s) (observer s)
    (printed s) (logged s) (calls s ++ [argv]) (raises s).

Definition count_raise (s : state) : state :=
  mkState (shutdown_event s) (rsync_event s) (mpc s) (wpc s) (main_options s)
    (thread_options s) (sigterm_installed s) (sigint_installed s) (observer s)
    (printed s) (logged s) (calls s) (S (raises s)).

(** *** [RSyncEventHandler] *)
Module RSyncEventHandler.

(** [rsync(self)]: [self.rsync_event.set()]. *)
Definition rsync (s : state) : state :=
  count_raise (set_rsync_event (Event.set (rsync_event s)) s).

(** [__init__]: stores its arguments and calls [self.rsync()]. *)
Definition __init__ (s : state) : state := rsync s.

Definition moved_line (event : fs_event) : string :=
  "Moved " ++ _get_what event ++ ": from " ++ src_path event ++ " to "
  ++ dest_path event.

Definition on_moved (event : fs_event) (s : state) : state :=
  rsync (log (moved_line event) COLORS.BLUE s).

Definition created_line (event : fs_event) : string :=
  "Created " ++ _get_what event ++ ": " ++ src_path event.

Definition on_created (event : fs_event) (s : state) : state :=
  rsync (log (created_line event) COLORS.GREEN s).

Definition deleted_line (event : fs_event) : string :=
  "Deleted " ++ _get_what event ++ ": " ++ src_path event.

Definition on_deleted (event : fs_event) (s : state) : state :=
  rsync (log (deleted_line event) COLORS.RED s).

Definition modified_line (event : fs_event) : string :=
  "Modified " ++ _get_what event ++ ": " ++ src_path event.

Definition on_modified (event : fs_event) (s : state) : state :=
  rsync (log (modified_line event) COLORS.YELLOW s).

(** [FileSystemEventHandler.dispatch]: the method named by the event type. *)
Definition dispatch (event : fs_event) (s : state) : state :=
  match event_type_of event with
  | Moved => on_moved event s
  | Created => on_created event s
  | Deleted => on_deleted event s
  | Modified => on_modified event s
  end.

End RSyncEventHandler.

(** *** [RSyncThread] *)
Module RSyncThread.

(** Line 127: ['rsync -avP {} {} {}'.format(...)]. *)
Definition cmd (cfg : config) (s : state) : string :=
  "rsync -avP " ++ thread_options s ++ " " ++ local_path cfg ++ " "
  ++ remote_path cfg.

(** [__init__]: stores its arguments; of these only the options string can
    differ from the configuration. *)
Definition __init__ (options : string) (s : state) : state :=
  set_thread_options options s.

(** [run], advanced by one statement.  [status] is the exit status the
    external command returns when the statement is the end of
    [subprocess.call]; the source discards it. *)
Definition run (cfg : config) (status : Z) (s : state) : state :=
  match wpc s with
  | W_unstarted | W_done | W_crashed => s
  | W_outer =>
      if Event.is_set (shutdown_event s) then set_wpc W_done s
      else set_wpc W_inner_shutdown s
  | W_inner_shutdown =>
      if Event.is_set (shutdown_event s) then set_wpc W_clear s
      else set_wpc W_inner_rsync s
  | W_inner_rsync =>
      if Event.is_set (rsync_event s) then set_wpc W_clear s
      else set_wpc W_sleep s
  | W_sleep => set_wpc W_inner_shutdown s
  | W_clear =>
      set_wpc W_log_rsyncing (set_rsync_event (Event.clear (rsync_event s)) s)
  | W_log_rsyncing => set_wpc W_log_cmd (log "RSyncing" COLORS.PURPLE s)
  | W_log_cmd => set_wpc W_call (log (cmd cfg s) COLORS.BOLD s)
  | W_call =>
      match Shlex.split (cmd cfg s) with
      | Some argv => set_wpc W_running (push_call argv s)
      | None => set_wpc W_crashed s
      end
  | W_running => set_wpc W_outer s
  end.

End RSyncThread.

(** *** [main] *)

Definition missing_rsync_message : string :=
  COLORS.RED ++ "Can't find the `rsync` program, you need to install it."
  ++ COLORS.END.

(** Lines 163-166: the stripped lines of the options file, joined by single
    spaces, are appended to the literal options string. *)
Definition merge_options (literal : string) (lines : list string) : string :=
  literal ++ PyStr.join " " (map PyStr.strip lines).

(** [main], advanced by one statement.  The observer is taken to be created,
    scheduled and started without error. *)
Definition main (cfg : config) (env : environment) (s : state) : state :=
  match mpc s with
  | M_which =>
      if Z.eqb (which_status env) 0 then set_mpc M_file_opts s
      else set_mpc M_print_missing s
  | M_print_missing => set_mpc M_sys_exit (print missing_rsync_message s)
  | M_sys_exit => set_mpc (M_exited 1) s
  | M_file_opts =>
      match rsync_file_opts cfg with
      | Some path =>
          if PyStr.truthy path then
            match file_lines env path with
            | Some lines =>
                set_mpc M_events
                  (set_main_options (merge_options (main_options s) lines) s)
            | None => set_mpc (M_uncaught IOError) s
            end
          else set_mpc M_events s
      | None => set_mpc M_events s
      end
  | M_events =>
      set_mpc M_signal_term
        (set_shutdown_event Event.new (set_rsync_event Event.new s))
  | M_signal_term => set_mpc M_signal_int (install SIGTERM s)
  | M_signal_int => set_mpc M_thread_new (install SIGINT s)
  | M_thread_new =>
      set_mpc M_thread_start (RSyncThread.__init__ (main_options s) s)
  | M_thread_start => set_mpc M_handler_new (set_wpc W_outer s)
  | M_handler_new => set_mpc M_observer_new (RSyncEventHandler.__init__ s)
  | M_observer_new => set_mpc M_observer_schedule (set_observer O_created s)
  | M_observer_schedule => set_mpc M_observer_start (set_observer O_scheduled s)
  | M_observer_start => set_mpc M_sleep (set_observer O_started s)
  | M_sleep => s
  | M_shutdown_set =>
      set_mpc M_observer_stop
        (set_shutdown_event (Event.set (shutdown_event s)) s)
  | M_observer_stop => set_mpc M_observer_join (set_observer O_stopped s)
  | M_observer_join => set_mpc M_returned (set_observer O_joined s)
  | M_returned | M_exited _ | M_uncaught _ | M_default_signal _ => s
  end.

Definition main_ended (s : state) : bool :=
  match mpc s with
  | M_returned | M_exited _ | M_uncaught _ | M_default_signal _ => true
  | _ => false
  end.

(** An exception raised in the main thread at the statement it is executing:
    the try block of lines 190-192 is the only one, and it catches
    [ShutdownException] only. *)
Definition raise_in_main (e : exn) (s : state) : state :=
  match mpc s, e with
  | M_sleep, ShutdownException => set_mpc M_shutdown_set s
  | _, _ => set_mpc (M_uncaught e) s
  end.

(** The signal handler [shutdown] of lines 174-176: prints and raises.  The
    class [ShutdownException] is raised and caught as the source writes it. *)
Definition shutdown (sg : signal) (s : state) : state :=
  raise_in_main ShutdownException
    (print ("Caught signal " ++ PyStr.of_nat (signum sg)) s).

(** Delivery of a signal: an installed handler runs in the main thread;
    without a handler the signal has its default disposition.  Signals that
    arrive after the main thread has ended are not modelled. *)
Definition deliver (sg : signal) (s : state) : state :=
  if main_ended s then s
  else if installed sg s then shutdown sg s
  else set_mpc (M_default_signal sg) s.

(** A notification reaches the handler only while the observer runs. *)
Definition notify (event : fs_event) (s : state) : state :=
  match observer s with
  | O_started => RSyncEventHandler.dispatch event s
  | _ => s
  end.

(** *** The process: interleavings of the threads *)

Inductive action :=
| Main                      (* the main thread runs its next statement *)
| Worker (status : Z)       (* the worker thread runs its next statement *)
| Notify (event : fs_event) (* the observer thread delivers a notification *)
| Signal (sg : signal).     (* the system delivers a signal *)

Definition step (cfg : config) (env : environment) (a : action) (s : state)
  : state :=
  match a with
  | Main => main cfg env s
  | Worker status => RSyncThread.run cfg status s
  | Notify event => notify event s
  | Signal sg => deliver sg s
  end.

Fixpoint exec (cfg : config) (env : environment) (sched : list action)
  (s : state) : state :=
  match sched with
  | [] => s
  | a :: sched' => exec cfg env sched' (step cfg env a s)
  end.

Definition worker_ended (s : state) : bool :=
  match wpc s with
  | W_unstarted | W_done | W_crashed => true
  | _ => false
  end.

(** The exit status of the process, once it has one: the interpreter exits
    when the main thread has ended and the worker, a non-daemon thread, is
    not running; a normal return of [main] gives 0, [sys.exit(n)] gives [n]
    and an uncaught exception gives 1. *)
Definition exit_status (s : state) : option Z :=
  if worker_ended s then
    match mpc s with
    | M_returned => Some 0%Z
    | M_exited status => Some status
    | M_uncaught _ => Some 1%Z
    | _ => None
    end
  else None.

(** Schedules used below. *)
Definition is_worker (a : action) : bool :=
  match a with Worker _ => true | _ => false end.

Definition is_main (a : action) : bool :=
  match a with Main => true | _ => false end.

Definition is_notify (a : action) : bool :=
  match a with Notify _ => true | _ => false end.

Definition is_signal (a : action) : bool :=
  match a with Signal _ => true | _ => false end.

Definition count (p : action -> bool) (sched : list action) : nat :=
  List.length (filter p sched).


(** ** Vocabulary of the statements *)

(** Number of synchronization runs started so far. *)
Definition runs (s : state) : nat := List.length (calls s).

Definition pending (s : state) : bool := Event.is_set (rsync_event s).

Definition shutting_down (s : state) : bool := Event.is_set (shutdown_event s).

(** The worker is in its wait loop (lines 117-119). *)
Definition waiting (p : worker_pc) : bool :=
  match p with
  | W_outer | W_inner_shutdown | W_inner_rsync | W_sleep => true
  | _ => false
  end.


(** [main] has passed [rsync.start()]. *)
Definition main_started (p : main_pc) : bool :=
  match p with
  | M_which | M_print_missing | M_sys_exit | M_file_opts | M_events
  | M_signal_term | M_signal_int | M_thread_new | M_thread_start => false
  | _ => true
  end.

Definition reachable (cfg : config) (env : environment) (s : state) : Prop :=
  exists sched, exec cfg env sched (init cfg) = s.

(** The worker's take: the read of [rsync_event.is_set()] at line 118 and the
    [rsync_event.clear()] of line 121, with nothing in between. *)
Definition take (s : state) : bool * state :=
  (Event.is_set (rsync_event s),
   set_rsync_event (Event.clear (rsync_event s)) s).

(** [n] calls of [RSyncEventHandler.rsync], the program's raise. *)
Definition raise_n (n : nat) (s : state) : state :=
  Nat.iter n RSyncEventHandler.rsync s.

(** What [n] takes in a row return. *)
Fixpoint take_n (n : nat) (s : state) : list bool :=
  match n with
  | 0 => []
  | S n' => fst (take s) :: take_n n' (snd (take s))
  end.

(** The schedule with every exit status replaced by [status]. *)
Definition with_status (status : Z) (a : action) : action :=
  match a with
  | Worker _ => Worker status
  | _ => a
  end.

Definition is_quiet (a : action) : bool := is_main a || is_worker a.

(** [sub] occurs in [s]. *)
Definition contains (sub s : string) : Prop :=
  exists before after, s = before ++ sub ++ after.

(** A configuration and an environment to run the program on. *)
Definition demo_cfg : config :=
  mkConfig "/srv/site" "deploy@web:/var/www" "-z" None.

Definition demo_env : environment := mkEnv 0%Z (fun _ => None).

(** The demo process after startup and its initial run: [main] is in its
    sleep loop, the worker in its wait loop. *)
Definition demo_startup : list action :=
  repeat Main 13 ++ repeat (Worker 0%Z) 12.

Definition demo_idle : state := exec demo_cfg demo_env demo_startup (init demo_cfg).

(** The demo process while a run is in flight. *)
Definition demo_running : state :=
  exec demo_cfg demo_env (repeat Main 13 ++ repeat (Worker 0%Z) 7) (init demo_cfg).

Definition demo_event : fs_event := mkEvent Modified false "/srv/site/a.html" "".



(** A bound on the worker statements from control point [p] to the end of
    [run], once shutdown is set. *)
Definition to_end (p : worker_pc) : nat :=
  match p with
  | W_inner_rsync => 9
  | W_sleep => 8
  | W_inner_shutdown => 7
  | W_clear => 6
  | W_log_rsyncing => 5
  | W_log_cmd => 4
  | W_call => 3
  | W_running => 2
  | W_outer => 1
  | _ => 0
  end.

(** [n] statements of the worker with no other thread in between. *)
Definition worker_alone (cfg : config) (env : environment) (n : nat)
  (s : state) : state :=
  exec cfg env (repeat (Worker 0%Z) n) s.


(** The demo process in the middle of its first take: the worker has read the
    flag at line 118 and is about to clear it at line 121. *)
Definition demo_taking : state :=
  exec demo_cfg demo_env (repeat Main 13 ++ repeat (Worker 0%Z) 3) (init demo_cfg).

(** After shutdown is set, the worker at one of these control points starts
    no command any more. *)
Definition spent (p : worker_pc) : bool :=
  match p with
  | W_running | W_outer | W_done | W_crashed | W_unstarted => true
  | _ => false
  end.

(** The demo process after a terminate signal has been handled while the
    worker was in its wait loop with nothing pending: [main] has set the
    shutdown event. *)
Definition demo_shutdown : state :=
  exec demo_cfg demo_env (demo_startup ++ [Signal SIGTERM; Main]) (init demo_cfg).

(** The same with a notification delivered just before the signal. *)
Definition demo_shutdown_pending : state :=
  exec demo_cfg demo_env
    (demo_startup ++ [Notify demo_event; Signal SIGTERM; Main]) (init demo_cfg).

(** The options string after lines 163-166; [None] when the options file
    cannot be opened. *)
Definition startup_options (cfg : config) (env : environment) : option string :=
  match rsync_file_opts cfg with
  | Some path =>
      if PyStr.truthy path
      then option_map (merge_options (rsync_options cfg)) (file_lines env path)
      else Some (rsync_options cfg)
  | None => Some (rsync_options cfg)
  end.

(** The command line of a run with options [opts]. *)
Definition command (cfg : config) (opts : string) : string :=
  "rsync -avP " ++ opts ++ " " ++ local_path cfg ++ " " ++ remote_path cfg.




(** The process when [main] has reached its sleep loop with options [opts]
    and no other thread has run yet. *)
Definition started (opts : string) : state :=
  {| shutdown_event := Event.new;
     rsync_event := Event.set Event.new;
     mpc := M_sleep;
     wpc := W_outer;
     main_options := opts;
     thread_options := opts;
     sigterm_installed := true;
     sigint_installed := true;
     observer := O_started;
     printed := [];
     logged := [];
     calls := [];
     raises := 1 |}.



Definition caught_message (sg : signal) : string :=
  "Caught signal " ++ PyStr.of_nat (signum sg).




(** ** Vocabulary for the command line *)

(** Every character of [s] satisfies [p]. *)
Fixpoint all (p : ascii -> bool) (s : string) : bool :=
  match s with
  | EmptyString => true
  | String c r => p c && all p r
  end.



(** Neither a quote nor the escape character: the lexer reads such a
    character as itself. *)
Definition plain (c : ascii) : bool :=
  negb (Shlex.quote c) && negb (Shlex.is_escape c).

(** A character of a word: plain and not a separator of the lexer. *)
Definition wordc (c : ascii) : bool := plain c && negb (Shlex.whitespace c).

(** A non-empty run of word characters. *)
Definition word (s : string) : bool := PyStr.truthy s && all wordc s.








(** ** Further vocabulary *)

(** The line a notification leaves in the log. *)
Definition handler_line (event : fs_event) : string :=
  match event_type_of event with
  | Moved => colored COLORS.BLUE (RSyncEventHandler.moved_line event)
  | Created => colored COLORS.GREEN (RSyncEventHandler.created_line event)
  | Deleted => colored COLORS.RED (RSyncEventHandler.deleted_line event)
  | Modified => colored COLORS.YELLOW (RSyncEventHandler.modified_line event)
  end.

(** The state without its log. *)
Definition forget_log (s : state) : state :=
  mkState (shutdown_event s) (rsync_event s) (mpc s) (wpc s) (main_options s)
    (thread_options s) (sigterm_installed s) (sigint_installed s) (observer s)
    (printed s) [] (calls s) (raises s).

Definition demo_dir_event : fs_event :=
  mkEvent Deleted true "/srv/site/img" "".

(** Before [rsync.start()]: no thread of the program runs and nothing has
    happened to the shared state. *)
Definition unstarted (s : state) : Prop :=
  wpc s = W_unstarted /\ shutting_down s = false /\ pending s = false
  /\ calls s = [] /\ raises s = 0 /\ observer s = O_none.

(** After [rsync.start()]: the checks of startup have passed, the thread
    holds the startup options and both handlers are installed. *)
Definition launched (cfg : config) (env : environment) (s : state) : Prop :=
  wpc s <> W_unstarted /\ which_status env = 0%Z
  /\ startup_options cfg env = Some (thread_options s)
  /\ sigterm_installed s = true /\ sigint_installed s = true.

(** What the order of the statements of [main] guarantees at each of its
    control points. *)
Definition order_inv (cfg : config) (env : environment) (s : state) : Prop :=
  match mpc s with
  | M_which => unstarted s /\ main_options s = rsync_options cfg
  | M_file_opts =>
      unstarted s /\ main_options s = rsync_options cfg
      /\ which_status env = 0%Z
  | M_print_missing | M_sys_exit | M_exited _ | M_default_signal _
  | M_uncaught IOError => unstarted s
  | M_events | M_signal_term =>
      unstarted s /\ which_status env = 0%Z
      /\ startup_options cfg env = Some (main_options s)
  | M_signal_int =>
      unstarted s /\ which_status env = 0%Z
      /\ startup_options cfg env = Some (main_options s)
      /\ sigterm_installed s = true
  | M_thread_new =>
      unstarted s /\ which_status env = 0%Z
      /\ startup_options cfg env = Some (main_options s)
      /\ sigterm_installed s = true /\ sigint_installed s = true
  | M_thread_start =>
      unstarted s /\ which_status env = 0%Z
      /\ startup_options cfg env = Some (thread_options s)
      /\ sigterm_installed s = true /\ sigint_installed s = true
  | M_handler_new => launched cfg env s /\ observer s = O_none /\ raises s = 0
  | M_uncaught ShutdownException =>
      unstarted s
      \/ (launched cfg env s /\ (observer s = O_none \/ 1 <= raises s))
  | _ => launched cfg env s /\ 1 <= raises s
  end.

(** Why a worker thread can have ended. *)
Definition end_inv (cfg : config) (s : state) : Prop :=
  (wpc s = W_done -> shutting_down s = true)
  /\ (wpc s = W_crashed -> Shlex.split (RSyncThread.cmd cfg s) = None)
  /\ Forall (fun argv => Shlex.split (RSyncThread.cmd cfg s) = Some argv)
       (calls s).

(** A literal options string with an unclosed quote. *)
Definition quote_cfg : config :=
  mkConfig "/srv/site" "deploy@web:/var/www" "--exclude='tmp" None.

(** Runs that are owed to raises already made: one for a pending signal, one
    for a signal the worker has cleared without having started the command
    yet. *)
Definition credit (s : state) : nat :=
  (if pending s then 1 else 0)
  + match wpc s with
    | W_log_rsyncing | W_log_cmd | W_call => 1
    | _ => 0
    end.

(** Commands are paid for by raises, except for the one command the worker may
    start once shutdown is set. *)
Definition paid_inv (s : state) : Prop :=
  (wpc s = W_clear -> shutting_down s = false -> pending s = true)
  /\ (shutting_down s = false -> runs s + credit s <= raises s)
  /\ (shutting_down s = true ->
      runs s + (if spent (wpc s) then 0 else 1) <= S (raises s)).

(** The state without what was printed. *)
Definition forget_printed (s : state) : state :=
  mkState (shutdown_event s) (rsync_event s) (mpc s) (wpc s) (main_options s)
    (thread_options s) (sigterm_installed s) (sigint_installed s) (observer s)
    [] (logged s) (calls s) (raises s).

(** A configuration that names an options file, and an environment in which
    that file cannot be opened. *)
Definition file_cfg : config :=
  mkConfig "/srv/site" "deploy@web:/var/www" "-z" (Some "missing.txt").

(** How often the line [l] occurs in a log. *)
Definition occurrences (l : string) (log : list string) : nat :=
  count_occ string_dec log l.

(** Every command started, and the one about to be started, has had its two
    lines logged. *)
Definition log_inv (cfg : config) (s : state) : Prop :=
  runs s + match wpc s with W_call => 1 | _ => 0 end
  <= occurrences (colored COLORS.BOLD (RSyncThread.cmd cfg s)) (logged s)
  /\ runs s + match wpc s with W_log_cmd | W_call => 1 | _ => 0 end
     <= occurrences (colored COLORS.PURPLE "RSyncing") (logged s).


(** ** Basic facts about the steps *)

Section Steps.

Variable cfg : config.
Variable env : environment.

Lemma exec_app (l1 l2 : list action) (s : state) :
  exec cfg env (l1 ++ l2) s = exec cfg env l2 (exec cfg env l1 s).
Proof.
  revert s. induction l1 as [|a l1 IH]; intros s; simpl; [reflexivity|].
  apply IH.
Qed.

Lemma count_app (p : action -> bool) (l1 l2 : list action) :
  count p (l1 ++ l2) = count p l1 + count p l2.
Proof. unfold count. rewrite filter_app, length_app. reflexivity. Qed.

Lemma count_cons (p : action -> bool) (a : action) (l : list action) :
  count p (a :: l) = (if p a then 1 else 0) + count p l.
Proof. unfold count. simpl. destruct (p a); reflexivity. Qed.

(** The exit status never reaches the state. *)
Lemma worker_step_status (status status' : Z) (s : state) :
  RSyncThread.run cfg status s = RSyncThread.run cfg status' s.
Proof. reflexivity. Qed.

Lemma step_with_status (status : Z) (a : action) (s : state) :
  step cfg env (with_status status a) s = step cfg env a s.
Proof. destruct a; reflexivity. Qed.

Lemma exec_with_status (status : Z) (sched : list action) (s : state) :
  exec cfg env (map (with_status status) sched) s = exec cfg env sched s.
Proof.
  revert s. induction sched as [|a sched IH]; intros s; simpl; [reflexivity|].
  rewrite step_with_status. apply IH.
Qed.

(** In the wait loop, with neither event set, the worker only moves between
    the control points of the loop. *)
Lemma idle_step (status : Z) (s : state) :
  pending s = false -> shutting_down s = false -> waiting (wpc s) = true ->
  exists p, waiting p = true /\ RSyncThread.run cfg status s = set_wpc p s.
Proof.
  unfold pending, shutting_down, RSyncThread.run. intros Hp Hs Hw.
  destruct (wpc s); try discriminate Hw; rewrite ?Hp, ?Hs;
    eexists; (split; [|reflexivity]); reflexivity.
Qed.

Lemma idle_exec (sched : list action) (s : state) :
  forallb is_quiet sched = true -> mpc s = M_sleep ->
  pending s = false -> shutting_down s = false -> waiting (wpc s) = true ->
  exists p, waiting p = true /\ exec cfg env sched s = set_wpc p s.
Proof.
  revert s. induction sched as [|a sched IH]; intros s Hq Hm Hp Hs Hw.
  - exists (wpc s). split; [assumption|]. destruct s; reflexivity.
  - simpl in Hq. apply andb_true_iff in Hq as [Ha Hq].
    destruct a; try discriminate Ha; simpl.
    + unfold main. rewrite Hm. apply IH; assumption.
    + destruct (idle_step status s Hp Hs Hw) as [p [Hwp Hstep]].
      rewrite Hstep.
      destruct (IH (set_wpc p s) Hq Hm Hp Hs Hwp) as [p' [Hwp' Hex]].
      exists p'. split; [assumption|]. rewrite Hex. reflexivity.
Qed.

End Steps.

(** ** The coalescing gate *)

Lemma raise_n_pending (n : nat) (s : state) :
  1 <= n -> rsync_event (raise_n n s) = Event.mk true.
Proof.
  intros Hn. destruct n as [|n]; [lia|]. reflexivity.
Qed.

Lemma raise_n_raises (n : nat) (s : state) :
  raises (raise_n n s) = n + raises s.
Proof.
  induction n as [|n IH]; [reflexivity|].
  unfold raise_n in *. simpl. rewrite IH. reflexivity.
Qed.

Lemma take_n_after_take (k : nat) (s : state) :
  Forall (fun b => b = false) (take_n k (snd (take s))).
Proof.
  revert s. induction k as [|k IH]; intros s; simpl; constructor.
  - reflexivity.
  - apply IH.
Qed.

(** C2: any number N >= 1 of raises before one take is seen by that take as
    one pending signal: the take returns true, every take that follows it
    without a raise in between returns false, and a second raise before the
    clear changes nothing in either event (only the count of calls).  The
    worker's own two statements, the read of line 118 and the clear of line
    121, are this take. *)
Theorem C2_coalescing (cfg : config) (N : nat) (s : state) (HN : 1 <= N) :
  fst (take (raise_n N s)) = true
  /\ (forall k, Forall (fun b => b = false)
                  (take_n k (snd (take (raise_n N s)))))
  /\ rsync_event (raise_n N s) = rsync_event (raise_n 1 s)
  /\ (forall e, Event.set (Event.set e) = Event.set e)
  /\ (forall status status',
        let s1 := set_wpc W_inner_rsync (raise_n N s) in
        wpc (RSyncThread.run cfg status s1) = W_clear
        /\ RSyncThread.run cfg status' (RSyncThread.run cfg status s1)
           = set_wpc W_log_rsyncing (snd (take s1))).
Proof.
  assert (Hp : rsync_event (raise_n N s) = Event.mk true)
    by (apply raise_n_pending; assumption).
  repeat split.
  - unfold take. simpl. rewrite Hp. reflexivity.
  - intros k. apply take_n_after_take.
  - rewrite Hp. reflexivity.
  - unfold RSyncThread.run. simpl. rewrite Hp. reflexivity.
  - unfold RSyncThread.run, take. simpl. rewrite Hp. reflexivity.
Qed.

Lemma C2_coalescing_witness :
  fst (take (raise_n 3 demo_idle)) = true
  /\ take_n 4 (snd (take (raise_n 3 demo_idle))) = [false; false; false; false].
Proof.
  split.
  - apply (C2_coalescing demo_cfg 3 demo_idle). lia.
  - reflexivity.
Defined.

(** ** The event handler *)

Lemma contains_intro (before sub after : string) :
  contains sub (before ++ sub ++ after).
Proof. exists before, after. reflexivity. Qed.

Lemma append_assoc (a b c : string) : (a ++ b) ++ c = a ++ (b ++ c).
Proof. induction a as [|x a IH]; simpl; [reflexivity|]. rewrite IH. reflexivity. Qed.

Lemma append_nil_r (a : string) : a ++ "" = a.
Proof. induction a as [|x a IH]; simpl; [reflexivity|]. rewrite IH. reflexivity. Qed.


(** ** Frame properties of the steps *)

Ltac unfold_steps :=
  unfold step, notify, deliver, shutdown, raise_in_main, main,
    RSyncThread.run, RSyncThread.__init__,
    RSyncEventHandler.dispatch, RSyncEventHandler.on_moved,
    RSyncEventHandler.on_created, RSyncEventHandler.on_deleted,
    RSyncEventHandler.on_modified, RSyncEventHandler.__init__,
    RSyncEventHandler.rsync, RSyncThread.cmd, main_ended, installed,
    pending, shutting_down, runs in *.

Ltac break_match :=
  match goal with
  | |- context [match ?x with _ => _ end] => destruct x eqn:?
  end.

Section Frame.

Variable cfg : config.
Variable env : environment.

Lemma step_frame (a : action) (s : state) :
  main_started (mpc s) = true ->
  main_started (mpc (step cfg env a s)) = true
  /\ thread_options (step cfg env a s) = thread_options s
  /\ (shutting_down s = true -> shutting_down (step cfg env a s) = true)
  /\ runs s <= runs (step cfg env a s)
  /\ (wpc s = W_done -> wpc (step cfg env a s) = W_done)
  /\ (is_worker a = false ->
      wpc (step cfg env a s) = wpc s
      /\ calls (step cfg env a s) = calls s
      /\ (pending s = true -> pending (step cfg env a s) = true)).
Proof.
  intros Hm. destruct s as [sd rs mp wp mo to st si ob pr lg cl ra].
  simpl in Hm. destruct a as [|status|event|sg]; unfold_steps; simpl.
  - destruct mp; try discriminate Hm; simpl; repeat split; auto.
  - destruct wp; simpl; repeat break_match; simpl;
      repeat split; auto; try discriminate;
      rewrite ?length_app; simpl; lia.
  - destruct ob; simpl; repeat split; auto;
      destruct (event_type_of event); simpl; auto.
  - destruct mp; try discriminate Hm; simpl; destruct sg; simpl;
      repeat break_match; simpl; repeat split; auto.
Qed.


End Frame.

(** ** Progress of the worker towards the next run *)

Section Progress.

Variable cfg : config.
Variable env : environment.

Lemma cmd_thread_options (s s' : state) :
  thread_options s' = thread_options s ->
  RSyncThread.cmd cfg s' = RSyncThread.cmd cfg s.
Proof. unfold RSyncThread.cmd. intros ->. reflexivity. Qed.



End Progress.

(** ** Lost wake-ups *)

Local Arguments Shlex.split : simpl never.
Local Arguments RSyncThread.cmd : simpl never.

Section Wakeups.

Variable cfg : config.
Variable env : environment.



End Wakeups.




(** ** Bursts of notifications during a run *)

Section Burst.

Variable cfg : config.
Variable env : environment.

(** A burst of notifications touches the rsync event, the log and the count
    of raises only. *)
Lemma burst_exec (events : list fs_event) (s : state) :
  observer s = O_started ->
  let s1 := exec cfg env (map Notify events) s in
  wpc s1 = wpc s /\ mpc s1 = mpc s /\ observer s1 = O_started
  /\ shutdown_event s1 = shutdown_event s
  /\ thread_options s1 = thread_options s
  /\ calls s1 = calls s
  /\ raises s1 = List.length events + raises s
  /\ (1 <= List.length events -> pending s1 = true).
Proof.
  revert s. induction events as [|e events IH]; intros s Ho; simpl.
  - repeat split; auto. intros H. inversion H.
  - assert (Hstep : let s' := notify e s in
              wpc s' = wpc s /\ mpc s' = mpc s /\ observer s' = O_started
              /\ shutdown_event s' = shutdown_event s
              /\ thread_options s' = thread_options s
              /\ calls s' = calls s /\ raises s' = S (raises s)
              /\ pending s' = true).
    { unfold_steps. rewrite Ho.
      destruct (event_type_of e); simpl; repeat split; auto. }
    simpl in Hstep.
    destruct Hstep as (H1 & H2 & H3 & H4 & H5 & H6 & H7 & H8).
    destruct (IH (notify e s) H3) as (I1 & I2 & I3 & I4 & I5 & I6 & I7 & I8).
    repeat split; try congruence.
    + rewrite I7, H7. lia.
    + intros _. destruct events as [|e' events]; [exact H8|].
      apply I8. simpl. lia.
Qed.

(** While [main] sleeps, a schedule of main and worker steps is the worker
    running alone. *)
Lemma quiet_exec (sched : list action) (s : state) :
  forallb is_quiet sched = true -> mpc s = M_sleep ->
  exec cfg env sched s = worker_alone cfg env (count is_worker sched) s.
Proof.
  unfold worker_alone.
  revert s. induction sched as [|a sched IH]; intros s Hq Hm; [reflexivity|].
  simpl in Hq. apply andb_true_iff in Hq as [Ha Hq].
  rewrite count_cons. destruct a; try discriminate Ha; simpl.
  - unfold main. rewrite Hm. apply IH; assumption.
  - rewrite IH; [reflexivity|assumption|].
    destruct s as [sd rs mp wp mo to st si ob pr lg cl ra].
    unfold RSyncThread.run. simpl in *.
    destruct wp; simpl; repeat break_match; simpl; assumption.
Qed.

Lemma worker_alone_add (n m : nat) (s : state) :
  worker_alone cfg env (n + m) s
  = worker_alone cfg env m (worker_alone cfg env n s).
Proof. unfold worker_alone. rewrite repeat_app, exec_app. reflexivity. Qed.

Lemma worker_alone_S (n : nat) (s : state) :
  worker_alone cfg env (S n) s
  = worker_alone cfg env n (RSyncThread.run cfg 0%Z s).
Proof. reflexivity. Qed.

(** The statements of [run], one by one. *)
Lemma at_running (status : Z) (s : state) :
  wpc s = W_running -> RSyncThread.run cfg status s = set_wpc W_outer s.
Proof. unfold RSyncThread.run. intros ->. reflexivity. Qed.

Lemma at_outer (status : Z) (s : state) :
  wpc s = W_outer -> shutting_down s = false ->
  RSyncThread.run cfg status s = set_wpc W_inner_shutdown s.
Proof.
  unfold RSyncThread.run, shutting_down. intros -> ->. reflexivity.
Qed.

Lemma at_inner_shutdown (status : Z) (s : state) :
  wpc s = W_inner_shutdown -> shutting_down s = false ->
  RSyncThread.run cfg status s = set_wpc W_inner_rsync s.
Proof.
  unfold RSyncThread.run, shutting_down. intros -> ->. reflexivity.
Qed.

Lemma at_inner_rsync (status : Z) (s : state) :
  wpc s = W_inner_rsync -> pending s = true ->
  RSyncThread.run cfg status s = set_wpc W_clear s.
Proof. unfold RSyncThread.run, pending. intros -> ->. reflexivity. Qed.

Lemma at_clear (status : Z) (s : state) :
  wpc s = W_clear ->
  RSyncThread.run cfg status s
  = set_wpc W_log_rsyncing (set_rsync_event (Event.clear (rsync_event s)) s).
Proof. unfold RSyncThread.run. intros ->. reflexivity. Qed.

Lemma at_log_rsyncing (status : Z) (s : state) :
  wpc s = W_log_rsyncing ->
  RSyncThread.run cfg status s
  = set_wpc W_log_cmd (log "RSyncing" COLORS.PURPLE s).
Proof. unfold RSyncThread.run. intros ->. reflexivity. Qed.

Lemma at_log_cmd (status : Z) (s : state) :
  wpc s = W_log_cmd ->
  RSyncThread.run cfg status s
  = set_wpc W_call (log (RSyncThread.cmd cfg s) COLORS.BOLD s).
Proof. unfold RSyncThread.run. intros ->. reflexivity. Qed.

Lemma at_call (status : Z) (argv : list string) (s : state) :
  wpc s = W_call -> Shlex.split (RSyncThread.cmd cfg s) = Some argv ->
  RSyncThread.run cfg status s = set_wpc W_running (push_call argv s).
Proof. unfold RSyncThread.run. intros -> ->. reflexivity. Qed.

(** The state in which the command of the next run has just started. *)
Lemma next_run (argv : list string) (s : state) :
  wpc s = W_running -> pending s = true -> shutting_down s = false ->
  Shlex.split (RSyncThread.cmd cfg s) = Some argv ->
  (forall k, k < 8 -> calls (worker_alone cfg env k s) = calls s)
  /\ exists s8, worker_alone cfg env 8 s = s8
       /\ wpc s8 = W_running /\ mpc s8 = mpc s /\ pending s8 = false
       /\ shutting_down s8 = false /\ calls s8 = (calls s ++ [argv])%list.
Proof.
  intros Hw Hp Hs Hsplit.
  pose (s1 := set_wpc W_outer s).
  pose (s2 := set_wpc W_inner_shutdown s1).
  pose (s3 := set_wpc W_inner_rsync s2).
  pose (s4 := set_wpc W_clear s3).
  pose (s5 := set_wpc W_log_rsyncing
                (set_rsync_event (Event.clear (rsync_event s4)) s4)).
  pose (s6 := set_wpc W_log_cmd (log "RSyncing" COLORS.PURPLE s5)).
  pose (s7 := set_wpc W_call (log (RSyncThread.cmd cfg s6) COLORS.BOLD s6)).
  pose (s8 := set_wpc W_running (push_call argv s7)).
  assert (E1 : RSyncThread.run cfg 0%Z s = s1) by (apply at_running; exact Hw).
  assert (E2 : RSyncThread.run cfg 0%Z s1 = s2)
    by (apply at_outer; [reflexivity|exact Hs]).
  assert (E3 : RSyncThread.run cfg 0%Z s2 = s3)
    by (apply at_inner_shutdown; [reflexivity|exact Hs]).
  assert (E4 : RSyncThread.run cfg 0%Z s3 = s4)
    by (apply at_inner_rsync; [reflexivity|exact Hp]).
  assert (E5 : RSyncThread.run cfg 0%Z s4 = s5)
    by (apply at_clear; reflexivity).
  assert (E6 : RSyncThread.run cfg 0%Z s5 = s6)
    by (apply at_log_rsyncing; reflexivity).
  assert (E7 : RSyncThread.run cfg 0%Z s6 = s7)
    by (apply at_log_cmd; reflexivity).
  assert (E8 : RSyncThread.run cfg 0%Z s7 = s8)
    by (apply at_call; [reflexivity|exact Hsplit]).
  split.
  - intros k Hk.
    do 8 (destruct k as [|k];
          [rewrite ?worker_alone_S, ?E1, ?E2, ?E3, ?E4, ?E5, ?E6, ?E7;
           reflexivity|]).
    lia.
  - exists s8. split.
    + rewrite !worker_alone_S, E1, E2, E3, E4, E5, E6, E7, E8. reflexivity.
    + repeat split; try reflexivity. exact Hs.
Qed.

(** The worker alone, from a run in flight with a signal pending: the run
    ends, the pending signal starts one run at the eighth statement, and no
    further run starts. *)
Lemma one_more_run (argv : list string) (n : nat) (s : state) :
  wpc s = W_running -> mpc s = M_sleep ->
  pending s = true -> shutting_down s = false ->
  Shlex.split (RSyncThread.cmd cfg s) = Some argv ->
  let s' := worker_alone cfg env n s in
  calls s' = (calls s ++ (if 8 <=? n then [argv] else []))%list
  /\ (8 <= n -> pending s' = false
                /\ (wpc s' = W_running \/ waiting (wpc s') = true)).
Proof.
  intros Hw Hm Hp Hs Hsplit.
  destruct (next_run argv s Hw Hp Hs Hsplit)
    as (Hbefore & s8 & H8 & Hw8 & Hm8 & Hp8 & Hs8 & Hc8).
  cbv zeta. destruct (8 <=? n) eqn:Hn.
  - apply Nat.leb_le in Hn.
    replace n with (8 + (n - 8)) by lia.
    rewrite worker_alone_add, H8.
    destruct (n - 8) as [|m].
    + split; [exact Hc8|]. intros _. split; [exact Hp8|]. left. exact Hw8.
    + rewrite worker_alone_S, (at_running _ _ Hw8).
      destruct (idle_exec cfg env (repeat (Worker 0%Z) m) (set_wpc W_outer s8))
        as [p [Hwp Hex]]; auto.
      * clear. induction m as [|m IH]; [reflexivity|exact IH].
      * simpl. congruence.
      * unfold worker_alone. rewrite Hex. simpl.
        split; [exact Hc8|]. intros _. split; [exact Hp8|]. right. exact Hwp.
  - apply Nat.leb_gt in Hn. split; [|lia].
    rewrite (Hbefore n Hn). symmetry. apply app_nil_r.
Qed.

End Burst.

(** C4: during a run in flight, with shutdown unset, a burst of K >= 1
    notifications makes K raises and starts nothing; once the burst is over
    and only the worker and the sleeping main thread run, the run in flight
    ends and exactly one further command is started, at the worker's eighth
    statement; from then on the flag is unset and the worker stays in its
    wait loop, so no second command follows. *)
Theorem C4_burst_one_more_run (cfg : config) (env : environment)
  (s : state) (events : list fs_event) (sched : list action)
  (argv : list string)
  (Hrun : wpc s = W_running)
  (Hmain : mpc s = M_sleep)
  (Hobs : observer s = O_started)
  (Hshut : shutting_down s = false)
  (Hcmd : Shlex.split (RSyncThread.cmd cfg s) = Some argv)
  (HK : 1 <= List.length events)
  (Hquiet : forallb is_quiet sched = true) :
  let s1 := exec cfg env (map Notify events) s in
  let s2 := exec cfg env sched s1 in
  raises s1 = List.length events + raises s
  /\ calls s1 = calls s
  /\ wpc s1 = W_running
  /\ calls s2
     = (calls s ++ (if 8 <=? count is_worker sched then [argv] else []))%list
  /\ (8 <= count is_worker sched ->
      runs s2 = S (runs s) /\ pending s2 = false
      /\ (wpc s2 = W_running \/ waiting (wpc s2) = true)).
Proof.
  intros s1 s2.
  destruct (burst_exec cfg env events s Hobs)
    as (B1 & B2 & B3 & B4 & B5 & B6 & B7 & B8).
  fold s1 in B1, B2, B3, B4, B5, B6, B7, B8.
  assert (Hs2 : s2 = worker_alone cfg env (count is_worker sched) s1).
  { unfold s2. apply quiet_exec; [assumption|congruence]. }
  assert (Hcmd1 : Shlex.split (RSyncThread.cmd cfg s1) = Some argv)
    by (rewrite (cmd_thread_options cfg _ _ B5); assumption).
  assert (Hshut1 : shutting_down s1 = false)
    by (unfold shutting_down in *; rewrite B4; assumption).
  destruct (one_more_run cfg env argv (count is_worker sched) s1)
    as [Hcalls Hafter]; try congruence; auto.
  rewrite <- Hs2 in Hcalls, Hafter. rewrite B6 in Hcalls.
  split; [exact B7|]. split; [exact B6|]. split; [congruence|].
  split; [exact Hcalls|].
  intros H8. destruct (Hafter H8) as [Hp Hw].
  split; [|split; assumption].
  unfold runs. rewrite Hcalls. apply Nat.leb_le in H8.
  rewrite H8, length_app. simpl. lia.
Qed.

Lemma C4_burst_one_more_run_witness :
  runs (exec demo_cfg demo_env (repeat (Worker 1%Z) 20)
          (exec demo_cfg demo_env
             (map Notify [demo_event; demo_event; demo_event]) demo_running))
  = S (runs demo_running).
Proof.
  apply (C4_burst_one_more_run demo_cfg demo_env demo_running
           [demo_event; demo_event; demo_event] (repeat (Worker 1%Z) 20)
           ["rsync"; "-avP"; "-z"; "/srv/site"; "deploy@web:/var/www"]);
    try reflexivity.
  - simpl. lia.
  - vm_compute. lia.
Defined.

(** ** Exit status of the command *)

(** C8: when the command ends, the worker is back at the head of its loop
    whatever the exit status: the state after the end of the call does not
    depend on the status, no execution of the process does, the worker is not
    stopped by an error, goes on to its wait test when shutdown is unset, and
    with no signal pending starts no command again. *)
Theorem C8_exit_status_ignored (cfg : config) (env : environment)
  (s : state) (status : Z) (Hrun : wpc s = W_running) :
  let s' := step cfg env (Worker status) s in
  s' = set_wpc W_outer s
  /\ (forall status', step cfg env (Worker status') s = s')
  /\ calls s' = calls s
  /\ wpc s' <> W_crashed
  /\ (forall status' sched t,
        exec cfg env (map (with_status status') sched) t = exec cfg env sched t)
  /\ (shutting_down s = false ->
      forall status', wpc (step cfg env (Worker status') s') = W_inner_shutdown)
  /\ (pending s = false -> shutting_down s = false -> mpc s = M_sleep ->
      forall sched, forallb is_quiet sched = true ->
        calls (exec cfg env sched s') = calls s
        /\ waiting (wpc (exec cfg env sched s')) = true).
Proof.
  intros s'.
  assert (Hs' : s' = set_wpc W_outer s).
  { unfold s', step, RSyncThread.run. rewrite Hrun. reflexivity. }
  split; [exact Hs'|].
  split; [intros status'; reflexivity|].
  split; [rewrite Hs'; reflexivity|].
  split; [rewrite Hs'; discriminate|].
  split; [intros status' sched t; apply exec_with_status|].
  split.
  - intros Hs status'. rewrite Hs'. unfold step, RSyncThread.run. simpl.
    unfold shutting_down in Hs. rewrite Hs. reflexivity.
  - intros Hp Hs Hm sched Hq.
    destruct (idle_exec cfg env sched s') as [p [Hwp Hex]]; auto;
      try (rewrite Hs'; assumption); try (rewrite Hs'; reflexivity).
    rewrite Hex, Hs'. split; [reflexivity|exact Hwp].
Qed.

Lemma C8_exit_status_ignored_witness :
  step demo_cfg demo_env (Worker 23%Z) demo_running
  = set_wpc W_outer demo_running.
Proof.
  apply (C8_exit_status_ignored demo_cfg demo_env demo_running 23%Z).
  reflexivity.
Defined.

(** ** Shutdown *)

Section Shutdown.

Variable cfg : config.
Variable env : environment.

Lemma worker_step_frame (status : Z) (s : state) :
  let s' := RSyncThread.run cfg status s in
  mpc s' = mpc s /\ shutdown_event s' = shutdown_event s
  /\ thread_options s' = thread_options s /\ observer s' = observer s
  /\ printed s' = printed s /\ raises s' = raises s.
Proof.
  destruct s as [sd rs mp wp mo to st si ob pr lg cl ra].
  unfold RSyncThread.run. simpl.
  destruct wp; simpl; repeat break_match; simpl; repeat split; reflexivity.
Qed.

(** Shutdown set while the command runs, or seen at the outer test: no
    command is started any more and the pending flag is left as it is. *)
Lemma spent_step (a : action) (s : state) :
  main_started (mpc s) = true -> shutting_down s = true ->
  spent (wpc s) = true ->
  let s' := step cfg env a s in
  spent (wpc s') = true /\ calls s' = calls s
  /\ (pending s = true -> pending s' = true)
  /\ to_end (wpc s') <= to_end (wpc s)
  /\ (is_worker a = true -> to_end (wpc s') <= to_end (wpc s) - 1).
Proof.
  intros Hm Hs Hsp.
  destruct (is_worker a) eqn:Ha.
  - destruct a as [|status|event|sg]; try discriminate Ha.
    destruct s as [sd rs mp wp mo to st si ob pr lg cl ra].
    unfold_steps. simpl in *. rewrite Hs.
    destruct wp; try discriminate Hsp; simpl; repeat split; auto.
  - destruct (step_frame cfg env a s Hm) as (_ & _ & _ & _ & _ & F6).
    destruct (F6 Ha) as (K1 & K2 & K3). simpl.
    rewrite K1. repeat split; auto. discriminate.
Qed.

Lemma spent_exec (sched : list action) (s : state) :
  main_started (mpc s) = true -> shutting_down s = true ->
  spent (wpc s) = true ->
  let s' := exec cfg env sched s in
  spent (wpc s') = true /\ calls s' = calls s
  /\ (pending s = true -> pending s' = true)
  /\ (to_end (wpc s) <= count is_worker sched -> worker_ended s' = true).
Proof.
  revert s. induction sched as [|a sched IH]; intros s Hm Hs Hsp; simpl.
  - repeat split; auto. unfold count, worker_ended. simpl.
    destruct (wpc s); simpl in *; try discriminate; auto; lia.
  - destruct (step_frame cfg env a s Hm) as (F1 & _ & F3 & _).
    destruct (spent_step a s Hm Hs Hsp) as (S1 & S2 & S3 & S4 & S5).
    destruct (IH _ F1 (F3 Hs) S1) as (I1 & I2 & I3 & I4).
    repeat split; auto; try congruence.
    intros Hn. apply I4. rewrite count_cons in Hn.
    destruct (is_worker a); [specialize (S5 eq_refl)|]; simpl in Hn; lia.
Qed.

(** After shutdown is set, one worker statement either starts the command,
    leaving the worker with nothing more to start, or starts nothing and
    brings the worker closer to its end. *)
Lemma shutdown_step (a : action) (s : state) :
  main_started (mpc s) = true -> shutting_down s = true ->
  let s' := step cfg env a s in
  (runs s' = S (runs s) /\ spent (wpc s') = true /\ spent (wpc s) = false
   /\ to_end (wpc s') <= to_end (wpc s) - 1)
  \/ (calls s' = calls s /\ to_end (wpc s') <= to_end (wpc s)
      /\ (is_worker a = true -> to_end (wpc s') <= to_end (wpc s) - 1)).
Proof.
  intros Hm Hs.
  destruct (is_worker a) eqn:Ha.
  - destruct a as [|status|event|sg]; try discriminate Ha.
    destruct s as [sd rs mp wp mo to st si ob pr lg cl ra].
    unfold_steps. simpl in *. rewrite Hs.
    destruct wp; simpl; repeat break_match; simpl;
      try (right; repeat split; auto; lia).
    left. rewrite length_app. simpl. repeat split; auto; lia.
  - destruct (step_frame cfg env a s Hm) as (_ & _ & _ & _ & _ & F6).
    destruct (F6 Ha) as (K1 & K2 & K3). simpl.
    right. rewrite K1. repeat split; auto. discriminate.
Qed.

(** After shutdown is set, at most one more command is started, and the
    worker thread ends within [to_end] of its statements. *)
Lemma shutdown_exec (sched : list action) (s : state) :
  main_started (mpc s) = true -> shutting_down s = true ->
  let s' := exec cfg env sched s in
  runs s' <= S (runs s)
  /\ (to_end (wpc s) <= count is_worker sched -> worker_ended s' = true).
Proof.
  revert s. induction sched as [|a sched IH]; intros s Hm Hs; simpl.
  - split; [lia|]. unfold count, worker_ended. simpl.
    destruct (wpc s); simpl; auto; lia.
  - destruct (step_frame cfg env a s Hm) as (F1 & _ & F3 & _).
    destruct (shutdown_step a s Hm Hs)
      as [(R1 & R2 & R3 & R4) | (R1 & R2 & R3)].
    + destruct (spent_exec sched _ F1 (F3 Hs) R2) as (_ & E2 & _ & E4).
      split.
      * unfold runs in *. rewrite E2. lia.
      * intros Hn. apply E4. rewrite count_cons in Hn.
        destruct (is_worker a); simpl in Hn; lia.
    + destruct (IH _ F1 (F3 Hs)) as (I1 & I2).
      split.
      * unfold runs in *. rewrite R1 in I1. exact I1.
      * intros Hn. apply I2. rewrite count_cons in Hn.
        destruct (is_worker a); [specialize (R3 eq_refl)|]; simpl in Hn; lia.
Qed.

End Shutdown.

(** Shutdown seen at the test of line 118: the wait loop is left towards
    line 121, and the fifth statement from there starts the command. *)
Lemma shutdown_seen_in_wait_loop (cfg : config) (env : environment)
  (argv : list string) (s : state) :
  wpc s = W_inner_shutdown -> shutting_down s = true ->
  Shlex.split (RSyncThread.cmd cfg s) = Some argv ->
  let s' := worker_alone cfg env 5 s in
  calls s' = (calls s ++ [argv])%list /\ pending s' = false
  /\ wpc s' = W_running.
Proof.
  intros Hw Hs Hsplit.
  pose (s1 := set_wpc W_clear s).
  pose (s2 := set_wpc W_log_rsyncing
                (set_rsync_event (Event.clear (rsync_event s1)) s1)).
  pose (s3 := set_wpc W_log_cmd (log "RSyncing" COLORS.PURPLE s2)).
  pose (s4 := set_wpc W_call (log (RSyncThread.cmd cfg s3) COLORS.BOLD s3)).
  pose (s5 := set_wpc W_running (push_call argv s4)).
  assert (E1 : RSyncThread.run cfg 0%Z s = s1).
  { unfold RSyncThread.run. unfold shutting_down in Hs. rewrite Hw, Hs.
    reflexivity. }
  assert (E2 : RSyncThread.run cfg 0%Z s1 = s2)
    by (apply at_clear; reflexivity).
  assert (E3 : RSyncThread.run cfg 0%Z s2 = s3)
    by (apply at_log_rsyncing; reflexivity).
  assert (E4 : RSyncThread.run cfg 0%Z s3 = s4)
    by (apply at_log_cmd; reflexivity).
  assert (E5 : RSyncThread.run cfg 0%Z s4 = s5)
    by (apply at_call; [reflexivity|exact Hsplit]).
  cbv zeta. rewrite !worker_alone_S, E1, E2, E3, E4, E5.
  repeat split.
Qed.

(** C1, at the failing input: in the demo process the terminate signal
    arrives while the worker is in its wait loop; [main] sets the shutdown
    event, one command has been started so far and nothing is pending.  The
    worker, alone from there, leaves the wait loop at the test of line 118
    and starts a second command before it ends.  With a notification pending
    when shutdown is set, the worker clears the flag on the same path. *)
Theorem C1_run_started_after_shutdown :
  shutting_down demo_shutdown = true
  /\ waiting (wpc demo_shutdown) = true
  /\ pending demo_shutdown = false
  /\ runs demo_shutdown = 1
  /\ runs (worker_alone demo_cfg demo_env 5 demo_shutdown) = 2
  /\ wpc (worker_alone demo_cfg demo_env 5 demo_shutdown) = W_running
  /\ wpc (worker_alone demo_cfg demo_env 7 demo_shutdown) = W_done
  /\ shutting_down demo_shutdown_pending = true
  /\ pending demo_shutdown_pending = true
  /\ pending (worker_alone demo_cfg demo_env 7 demo_shutdown_pending) = false
  /\ runs (worker_alone demo_cfg demo_env 7 demo_shutdown_pending)
     = S (runs demo_shutdown_pending).
Proof. vm_compute. repeat split; reflexivity. Qed.

(** ** Startup *)

Section Startup.

Variable cfg : config.
Variable env : environment.

Lemma ended_main (n : nat) (s : state) :
  main_ended s = true -> exec cfg env (repeat Main n) s = s.
Proof.
  intros He. induction n as [|n IH]; [reflexivity|]. simpl.
  unfold main. unfold main_ended in He.
  destruct (mpc s); try discriminate He; exact IH.
Qed.

(** Before [rsync.start()] and [observer.start()], worker and observer
    actions do nothing. *)
Lemma idle_threads (a : action) (s : state) :
  wpc s = W_unstarted -> observer s = O_none ->
  is_main a = false -> is_signal a = false -> step cfg env a s = s.
Proof.
  intros Hw Ho Hm Hs. destruct a; try discriminate; simpl.
  - unfold RSyncThread.run. rewrite Hw. reflexivity.
  - unfold notify. rewrite Ho. reflexivity.
Qed.


Lemma exec_repeat_S (a : action) (n : nat) (s : state) :
  exec cfg env (repeat a (S n)) s = exec cfg env (repeat a n) (step cfg env a s).
Proof. reflexivity. Qed.


Lemma which_found (s : state) :
  mpc s = M_which -> which_status env = 0%Z ->
  step cfg env Main s = set_mpc M_file_opts s.
Proof.
  unfold step, main. intros -> Heq. apply Z.eqb_eq in Heq. rewrite Heq.
  reflexivity.
Qed.


(** Lines 163-166 as one statement of [main]. *)
Lemma file_opts_step (opts : string) (s : state) :
  startup_options cfg env = Some opts ->
  mpc s = M_file_opts -> main_options s = rsync_options cfg ->
  step cfg env Main s = set_mpc M_events (set_main_options opts s).
Proof.
  unfold startup_options, step, main. intros Hopts Hpc Hmo. rewrite Hpc.
  destruct (rsync_file_opts cfg) as [path|].
  - destruct (PyStr.truthy path).
    + destruct (file_lines env path) as [lines|]; [|discriminate Hopts].
      simpl in Hopts. injection Hopts as <-. rewrite Hmo. reflexivity.
    + injection Hopts as <-. rewrite <- Hmo. destruct s; reflexivity.
  - injection Hopts as <-. rewrite <- Hmo. destruct s; reflexivity.
Qed.

(** The eleven startup statements of [main], with no other thread in
    between. *)
Lemma startup_exec (opts : string) :
  which_status env = 0%Z -> startup_options cfg env = Some opts ->
  exec cfg env (repeat Main 11) (init cfg) = started opts.
Proof.
  intros Heq Hopts. rewrite exec_repeat_S.
  rewrite (which_found (init cfg) eq_refl Heq). rewrite exec_repeat_S.
  rewrite (file_opts_step opts (set_mpc M_file_opts (init cfg)) Hopts
             eq_refl eq_refl).
  vm_compute. reflexivity.
Qed.

(** A schedule without signals, while no thread is started, is [main]
    alone. *)
Lemma main_alone (sched : list action) (s : state) :
  count is_signal sched = 0 ->
  (forall k, wpc (exec cfg env (repeat Main k) s) = W_unstarted
             /\ observer (exec cfg env (repeat Main k) s) = O_none) ->
  exec cfg env sched s = exec cfg env (repeat Main (count is_main sched)) s.
Proof.
  revert s. induction sched as [|a sched IH]; intros s Hsig Hk; [reflexivity|].
  rewrite count_cons in *. simpl.
  destruct (is_signal a) eqn:Hs; [discriminate Hsig|]. simpl in Hsig.
  destruct (is_main a) eqn:Hm.
  - destruct a; try discriminate Hm. simpl.
    apply IH; [assumption|]. intros k. apply (Hk (S k)).
  - simpl. destruct (Hk 0) as [Hw Ho]. simpl in Hw, Ho.
    rewrite (idle_threads a s Hw Ho Hm Hs). apply IH; assumption.
Qed.

End Startup.



(** ** Signals *)

Section Signals.

Variable cfg : config.
Variable env : environment.

Lemma notify_frame (event : fs_event) (s : state) :
  let s' := notify event s in
  mpc s' = mpc s /\ wpc s' = wpc s /\ shutdown_event s' = shutdown_event s
  /\ observer s' = observer s /\ calls s' = calls s
  /\ thread_options s' = thread_options s /\ printed s' = printed s.
Proof.
  unfold_steps. destruct (observer s) eqn:Ho;
    try (repeat split; (reflexivity || assumption)).
  destruct (event_type_of event); simpl; repeat split;
    (reflexivity || assumption).
Qed.







End Signals.




(** ** The initial synchronization *)

Section Initial.

Variable cfg : config.
Variable env : environment.
Variable opts : string.
Variable argv : list string.

Hypothesis Hwhich : which_status env = 0%Z.
Hypothesis Hopts : startup_options cfg env = Some opts.
Hypothesis Hargv : Shlex.split (command cfg opts) = Some argv.






End Initial.





(** ** Strings *)






(** ** The lexer on text without quotes and escapes *)

Lemma plain_inv (c : ascii) :
  plain c = true -> Shlex.quote c = false /\ Shlex.is_escape c = false.
Proof.
  unfold plain. intros H. apply andb_true_iff in H as [H1 H2].
  apply negb_true_iff in H1, H2. split; assumption.
Qed.

Lemma wordc_inv (c : ascii) :
  wordc c = true ->
  Shlex.whitespace c = false /\ Shlex.quote c = false
  /\ Shlex.is_escape c = false.
Proof.
  unfold wordc. intros H. apply andb_true_iff in H as [H1 H2].
  apply negb_true_iff in H2. destruct (plain_inv c H1). auto.
Qed.

Lemma truthy_snoc (tok : string) (c : ascii) :
  PyStr.truthy (Shlex.snoc tok c) = true.
Proof. destruct tok; reflexivity. Qed.





(** ** The options file *)

Lemma join_cons (sep x : string) (xs : list string) :
  PyStr.join sep (x :: xs)
  = x ++ match xs with [] => EmptyString | _ => sep ++ PyStr.join sep xs end.
Proof.
  unfold PyStr.join. destruct xs; simpl; [rewrite append_nil_r|]; reflexivity.
Qed.






(** * Further properties of the program *)

(** ** Notifications of every type *)

Lemma handler_line_type (e e' : fs_event) :
  handler_line e = handler_line e' -> event_type_of e = event_type_of e'.
Proof.
  unfold handler_line, colored.
  destruct (event_type_of e), (event_type_of e'); intros H;
    try reflexivity; simpl in H; discriminate H.
Qed.

Lemma handler_line_paths (event : fs_event) :
  contains (src_path event) (handler_line event)
  /\ contains (_get_what event) (handler_line event).
Proof.
  unfold handler_line, colored, RSyncEventHandler.moved_line,
    RSyncEventHandler.created_line, RSyncEventHandler.deleted_line,
    RSyncEventHandler.modified_line.
  destruct (event_type_of event); split.
  - exists (COLORS.BLUE ++ "Moved " ++ _get_what event ++ ": from "),
           (" to " ++ dest_path event ++ COLORS.END).
    rewrite !append_assoc. reflexivity.
  - exists (COLORS.BLUE ++ "Moved "),
           (": from " ++ src_path event ++ " to " ++ dest_path event
            ++ COLORS.END).
    rewrite !append_assoc. reflexivity.
  - exists (COLORS.GREEN ++ "Created " ++ _get_what event ++ ": "), COLORS.END.
    rewrite !append_assoc. reflexivity.
  - exists (COLORS.GREEN ++ "Created "),
           (": " ++ src_path event ++ COLORS.END).
    rewrite !append_assoc. reflexivity.
  - exists (COLORS.RED ++ "Deleted " ++ _get_what event ++ ": "), COLORS.END.
    rewrite !append_assoc. reflexivity.
  - exists (COLORS.RED ++ "Deleted "),
           (": " ++ src_path event ++ COLORS.END).
    rewrite !append_assoc. reflexivity.
  - exists (COLORS.YELLOW ++ "Modified " ++ _get_what event ++ ": "),
           COLORS.END.
    rewrite !append_assoc. reflexivity.
  - exists (COLORS.YELLOW ++ "Modified "),
           (": " ++ src_path event ++ COLORS.END).
    rewrite !append_assoc. reflexivity.
Qed.

(** X1: while the observer runs, a notification of any of the four types
    appends exactly one line to the log and raises once.  The line holds the
    path and the label [file] or [directory], and lines of different event
    types are different, so the log tells the types apart.  Apart from the
    log the resulting state is the same for every event: type, path and
    file-or-directory play no part in triggering. *)
Theorem X1_notification_logged (event : fs_event) (s : state)
  (Hobs : observer s = O_started) :
  let s' := notify event s in
  logged s' = (logged s ++ [handler_line event])%list
  /\ raises s' = S (raises s)
  /\ pending s' = true
  /\ contains (src_path event) (handler_line event)
  /\ contains (_get_what event) (handler_line event)
  /\ (forall e', handler_line event = handler_line e' ->
                 event_type_of event = event_type_of e')
  /\ (forall e', forget_log (notify e' s) = forget_log s').
Proof.
  destruct (handler_line_paths event) as [Hsrc Hwhat].
  assert (Hlog : forall e,
             logged (notify e s) = (logged s ++ [handler_line e])%list
             /\ forget_log (notify e s)
                = forget_log (RSyncEventHandler.rsync s)).
  { intros e. unfold notify, RSyncEventHandler.dispatch, handler_line.
    rewrite Hobs. destruct (event_type_of e); split; reflexivity. }
  destruct (Hlog event) as [H1 H2].
  cbv zeta. split; [exact H1|].
  split.
  { change (raises (notify event s)) with (raises (forget_log (notify event s))).
    rewrite H2. reflexivity. }
  split.
  { change (pending (notify event s))
      with (pending (forget_log (notify event s))).
    rewrite H2. reflexivity. }
  split; [exact Hsrc|]. split; [exact Hwhat|].
  split; [intros e'; apply handler_line_type|].
  intros e'. destruct (Hlog e') as [_ H3]. rewrite H2, H3. reflexivity.
Qed.

Lemma X1_notification_logged_witness :
  logged (notify demo_dir_event demo_idle)
  = (logged demo_idle ++ [handler_line demo_dir_event])%list
  /\ raises (notify demo_dir_event demo_idle) = S (raises demo_idle).
Proof.
  destruct (X1_notification_logged demo_dir_event demo_idle eq_refl)
    as (H1 & H2 & _).
  split; assumption.
Defined.

(** ** The argument vector of the command *)

Lemma read_ws_skip (c : ascii) (R : string) :
  Shlex.whitespace c = true ->
  Shlex.read Shlex.Lws false EmptyString (String c R)
  = Shlex.read Shlex.Lws false EmptyString R.
Proof. intros Hc. simpl. rewrite Hc. reflexivity. Qed.

(** A token in progress runs up to the next separator. *)
Lemma read_word_sep (X : string) :
  all wordc X = true ->
  forall tok c R, PyStr.truthy tok = true -> Shlex.whitespace c = true ->
    Shlex.read Shlex.Lword false tok (X ++ String c R)
    = option_map (cons (tok ++ X))
        (Shlex.read Shlex.Lws false EmptyString R).
Proof.
  induction X as [|x X IH]; intros Hall tok c R Htok Hc.
  - simpl. rewrite Hc, Htok, append_nil_r. reflexivity.
  - simpl in Hall. apply andb_true_iff in Hall as [Hx Hall].
    destruct (wordc_inv x Hx) as (Hw & Hq & He).
    simpl. rewrite Hw, Hq, He.
    rewrite (IH Hall (Shlex.snoc tok x) c R (truthy_snoc tok x) Hc).
    unfold Shlex.snoc. rewrite append_assoc. reflexivity.
Qed.

Lemma read_word_end (X : string) :
  all wordc X = true ->
  forall tok, PyStr.truthy tok = true ->
    Shlex.read Shlex.Lword false tok X = Some [tok ++ X].
Proof.
  induction X as [|x X IH]; intros Hall tok Htok.
  - simpl. rewrite Htok, append_nil_r. reflexivity.
  - simpl in Hall. apply andb_true_iff in Hall as [Hx Hall].
    destruct (wordc_inv x Hx) as (Hw & Hq & He).
    simpl. rewrite Hw, Hq, He.
    rewrite (IH Hall (Shlex.snoc tok x) (truthy_snoc tok x)).
    unfold Shlex.snoc. rewrite append_assoc. reflexivity.
Qed.

Lemma split_word_sep (X : string) (c : ascii) (R : string) :
  word X = true -> Shlex.whitespace c = true ->
  Shlex.read Shlex.Lws false EmptyString (X ++ String c R)
  = option_map (cons X) (Shlex.read Shlex.Lws false EmptyString R).
Proof.
  unfold word. intros HX Hc. apply andb_true_iff in HX as [Hne HX].
  destruct X as [|x X]; [discriminate Hne|].
  simpl in HX. apply andb_true_iff in HX as [Hx HX].
  destruct (wordc_inv x Hx) as (Hw & Hq & He).
  simpl. rewrite Hw, Hq, He.
  apply (read_word_sep X HX (String x EmptyString) c R eq_refl Hc).
Qed.

Lemma split_word_end (X : string) :
  word X = true ->
  Shlex.read Shlex.Lws false EmptyString X = Some [X].
Proof.
  unfold word. intros HX. apply andb_true_iff in HX as [Hne HX].
  destruct X as [|x X]; [discriminate Hne|].
  simpl in HX. apply andb_true_iff in HX as [Hx HX].
  destruct (wordc_inv x Hx) as (Hw & Hq & He).
  simpl. rewrite Hw, Hq, He.
  apply (read_word_end X HX (String x EmptyString) eq_refl).
Qed.

(** The end of the command line: options that are words, then the two
    paths. *)
Lemma split_tail (ws : list string) (l r : string) :
  Forall (fun w => word w = true) ws -> word l = true -> word r = true ->
  Shlex.read Shlex.Lws false EmptyString
    (PyStr.join " " ws ++ " " ++ l ++ " " ++ r)
  = Some (ws ++ [l; r])%list.
Proof.
  intros Hws Hl Hr.
  assert (Hbase : Shlex.read Shlex.Lws false EmptyString (l ++ " " ++ r)
                  = Some [l; r]).
  { change (l ++ " " ++ r) with (l ++ String " "%char r).
    rewrite (split_word_sep l " "%char r Hl eq_refl).
    rewrite (split_word_end r Hr). reflexivity. }
  induction Hws as [|w ws Hw Hws IH].
  - change (PyStr.join " " [] ++ " " ++ l ++ " " ++ r)
      with (String " "%char (l ++ " " ++ r)).
    rewrite read_ws_skip by reflexivity. exact Hbase.
  - rewrite join_cons. destruct ws as [|w' ws].
    + rewrite append_nil_r.
      change (w ++ " " ++ l ++ " " ++ r)
        with (w ++ String " "%char (l ++ " " ++ r)).
      rewrite (split_word_sep w " "%char _ Hw eq_refl), Hbase. reflexivity.
    + rewrite !append_assoc.
      change (w ++ " " ++ PyStr.join " " (w' :: ws) ++ " " ++ l ++ " " ++ r)
        with (w ++ String " "%char
                (PyStr.join " " (w' :: ws) ++ " " ++ l ++ " " ++ r)).
      rewrite (split_word_sep w " "%char _ Hw eq_refl), IH. reflexivity.
Qed.

(** The command line always starts with the program and its fixed flags,
    whatever the options. *)
Lemma command_prefix (cfg : config) (opts : string) :
  Shlex.split (command cfg opts)
  = option_map (fun toks => "rsync" :: "-avP" :: toks)
      (Shlex.read Shlex.Lws false EmptyString
         (opts ++ " " ++ local_path cfg ++ " " ++ remote_path cfg)).
Proof.
  unfold Shlex.split, command.
  change ("rsync -avP " ++ opts ++ " " ++ local_path cfg ++ " "
          ++ remote_path cfg)
    with ("rsync" ++ String " "%char
            ("-avP" ++ String " "%char
               (opts ++ " " ++ local_path cfg ++ " " ++ remote_path cfg))).
  rewrite (split_word_sep "rsync" " "%char _ eq_refl eq_refl).
  rewrite (split_word_sep "-avP" " "%char _ eq_refl eq_refl).
  destruct (Shlex.read _ _ _ _); reflexivity.
Qed.

(** X2: every argument vector the program can build starts with [rsync] and
    [-avP]; and when the options are words separated by single spaces --
    none at all included -- and the two paths are words, the argument vector
    is exactly the program, the flags, the options in order, the local path
    and the remote path. *)
Theorem X2_argument_vector (cfg : config) (ws : list string)
  (Hws : Forall (fun w => word w = true) ws)
  (Hlocal : word (local_path cfg) = true)
  (Hremote : word (remote_path cfg) = true) :
  Shlex.split (command cfg (PyStr.join " " ws))
  = Some ("rsync" :: "-avP" :: ws ++ [local_path cfg; remote_path cfg])%list
  /\ (forall opts argv, Shlex.split (command cfg opts) = Some argv ->
        exists rest, argv = "rsync" :: "-avP" :: rest).
Proof.
  split.
  - rewrite command_prefix, (split_tail ws _ _ Hws Hlocal Hremote).
    reflexivity.
  - intros opts argv Hargv. rewrite command_prefix in Hargv.
    destruct (Shlex.read _ _ _ _) as [toks|]; [|discriminate Hargv].
    simpl in Hargv. injection Hargv as <-. exists toks. reflexivity.
Qed.

Lemma X2_argument_vector_witness :
  Shlex.split (command demo_cfg (PyStr.join " " ["-z"; "--delete"]))
  = Some ["rsync"; "-avP"; "-z"; "--delete"; "/srv/site";
          "deploy@web:/var/www"].
Proof.
  apply (X2_argument_vector demo_cfg ["-z"; "--delete"]).
  - repeat constructor.
  - reflexivity.
  - reflexivity.
Defined.

(** ** The order of startup *)

Section Order.

Variable cfg : config.
Variable env : environment.

Lemma order_inv_init : order_inv cfg env (init cfg).
Proof. unfold order_inv, unstarted. simpl. repeat split; reflexivity. Qed.

Lemma order_main (s : state) :
  order_inv cfg env s -> order_inv cfg env (main cfg env s).
Proof.
  destruct s as [sd rs mp wp mo to st si ob pr lg cl ra].
  unfold order_inv, unstarted, launched, main,
    pending, shutting_down, RSyncEventHandler.__init__,
    RSyncEventHandler.rsync, RSyncThread.__init__.
  simpl. intros H.
  destruct mp; simpl in *; try (destruct e; simpl in *);
    try (intuition (subst; simpl; auto; try congruence; try lia); fail).
  - (* line 155 *)
    destruct (which_status env =? 0)%Z eqn:Hw; simpl.
    + apply Z.eqb_eq in Hw. intuition auto.
    + intuition auto.
  - (* lines 163-166 *)
    destruct H as (Hun & Hmo & Hw). subst mo. unfold startup_options.
    destruct (rsync_file_opts cfg) as [path|]; simpl;
      [destruct (PyStr.truthy path); simpl;
       [destruct (file_lines env path); simpl|]|];
      intuition auto.
Qed.

(** The invariant looks at the threads only through these parts of the
    state. *)
Lemma order_inv_ext (s s' : state) :
  mpc s' = mpc s -> main_options s' = main_options s ->
  thread_options s' = thread_options s ->
  sigterm_installed s' = sigterm_installed s ->
  sigint_installed s' = sigint_installed s ->
  observer s' = observer s ->
  (unstarted s -> unstarted s') ->
  (wpc s <> W_unstarted -> wpc s' <> W_unstarted) ->
  (observer s = O_none -> raises s' = raises s) ->
  raises s <= raises s' ->
  order_inv cfg env s -> order_inv cfg env s'.
Proof.
  intros Hm Hmo Hto Hst Hsi Hob Hun Hw Hr0 Hr.
  unfold order_inv, launched. rewrite Hm, Hmo, Hto, Hst, Hsi, Hob.
  destruct (mpc s); try (destruct e);
    intuition (try congruence; try lia).
Qed.

Lemma run_frame (status : Z) (s : state) :
  let s' := RSyncThread.run cfg status s in
  main_options s' = main_options s
  /\ sigterm_installed s' = sigterm_installed s
  /\ sigint_installed s' = sigint_installed s
  /\ (wpc s = W_unstarted -> s' = s)
  /\ (wpc s <> W_unstarted -> wpc s' <> W_unstarted).
Proof.
  destruct s as [sd rs mp wp mo to st si ob pr lg cl ra].
  unfold RSyncThread.run. simpl.
  destruct wp; simpl; repeat break_match; simpl;
    repeat split; auto; try discriminate; try congruence.
Qed.

Lemma order_worker (status : Z) (s : state) :
  order_inv cfg env s -> order_inv cfg env (RSyncThread.run cfg status s).
Proof.
  destruct (worker_step_frame cfg status s) as (W1 & W2 & W3 & W4 & W5 & W6).
  destruct (run_frame status s) as (R1 & R2 & R3 & R4 & R5).
  apply order_inv_ext; auto.
  - intros Hun. destruct Hun as (Hw & Hrest).
    rewrite (R4 Hw). split; assumption.
  - rewrite W6. apply Nat.le_refl.
Qed.

Lemma notify_frame2 (event : fs_event) (s : state) :
  let s' := notify event s in
  main_options s' = main_options s
  /\ sigterm_installed s' = sigterm_installed s
  /\ sigint_installed s' = sigint_installed s
  /\ (observer s <> O_started -> s' = s)
  /\ raises s <= raises s'.
Proof.
  unfold_steps. destruct (observer s) eqn:Ho;
    try (repeat split; auto; fail).
  destruct (event_type_of event); simpl; repeat split; auto;
    intros H; congruence.
Qed.

Lemma order_notify (event : fs_event) (s : state) :
  order_inv cfg env s -> order_inv cfg env (notify event s).
Proof.
  destruct (notify_frame event s) as (N1 & N2 & N3 & N4 & N5 & N6 & N7).
  destruct (notify_frame2 event s) as (M1 & M2 & M3 & M4 & M5).
  apply order_inv_ext; auto.
  - intros Hun. rewrite M4; [exact Hun|].
    destruct Hun as (_ & _ & _ & _ & _ & Ho). rewrite Ho. discriminate.
  - intros Hw. rewrite N2. exact Hw.
  - intros Ho. rewrite M4; [reflexivity|]. rewrite Ho. discriminate.
Qed.

Lemma order_deliver (sg : signal) (s : state) :
  order_inv cfg env s -> order_inv cfg env (deliver sg s).
Proof.
  destruct s as [sd rs mp wp mo to st si ob pr lg cl ra].
  unfold order_inv, unstarted, launched, deliver, shutdown, raise_in_main,
    main_ended, installed, pending, shutting_down.
  simpl. intros H.
  destruct mp; try (destruct e); simpl in *; try exact H;
    destruct sg; simpl;
    repeat break_match; simpl;
    intuition (try congruence; try discriminate; try lia).
Qed.

Lemma order_step (a : action) (s : state) :
  order_inv cfg env s -> order_inv cfg env (step cfg env a s).
Proof.
  destruct a; simpl.
  - apply order_main.
  - apply order_worker.
  - apply order_notify.
  - apply order_deliver.
Qed.

Lemma order_exec (sched : list action) (s : state) :
  order_inv cfg env s -> order_inv cfg env (exec cfg env sched s).
Proof.
  revert s. induction sched as [|a sched IH]; intros s H; simpl; [exact H|].
  apply IH, order_step, H.
Qed.

End Order.

Lemma order_cases (cfg : config) (env : environment) (s : state) :
  order_inv cfg env s ->
  unstarted s
  \/ (launched cfg env s /\ main_started (mpc s) = true
      /\ (observer s = O_none \/ 1 <= raises s)).
Proof.
  unfold order_inv. destruct (mpc s); try (destruct e); simpl;
    intuition auto.
Qed.

Lemma reachable_order (cfg : config) (env : environment)
  (sched : list action) :
  order_inv cfg env (exec cfg env sched (init cfg)).
Proof. apply order_exec, order_inv_init. Qed.

(** X3: under every schedule -- signals and notifications included -- the
    worker thread runs only after the rsync program was found, with both
    signal handlers installed and with the options fixed at startup; the
    observer is created only after the worker was started and the handler's
    constructor has raised; and as long as the worker is not started nothing
    has been raised, started or set. *)
Theorem X3_startup_order (cfg : config) (env : environment)
  (sched : list action) :
  let s := exec cfg env sched (init cfg) in
  (wpc s <> W_unstarted ->
   which_status env = 0%Z
   /\ startup_options cfg env = Some (thread_options s)
   /\ installed SIGTERM s = true /\ installed SIGINT s = true)
  /\ (observer s <> O_none -> 1 <= raises s /\ wpc s <> W_unstarted)
  /\ (wpc s = W_unstarted ->
      calls s = [] /\ raises s = 0 /\ pending s = false
      /\ shutting_down s = false /\ observer s = O_none).
Proof.
  cbv zeta.
  destruct (order_cases cfg env _ (reachable_order cfg env sched))
    as [Hun | (Hla & Hms & Hobs)].
  - destruct Hun as (Hw & Hs & Hp & Hc & Hr & Ho).
    split; [intros H; contradiction|].
    split; [intros H; contradiction|]. auto.
  - destruct Hla as (Hw & Hwhich & Hopts & Hst & Hsi).
    split; [intros _; simpl; auto|].
    split; [|intros H; contradiction].
    intros Ho. destruct Hobs as [Hobs | Hobs]; [contradiction|]. auto.
Qed.

Lemma X3_startup_order_witness :
  installed SIGTERM demo_running = true /\ installed SIGINT demo_running = true.
Proof.
  destruct (X3_startup_order demo_cfg demo_env
              (repeat Main 13 ++ repeat (Worker 0%Z) 7)) as (H & _).
  destruct H as (_ & _ & H1 & H2); [discriminate|].
  split; assumption.
Defined.

(** ** How the worker ends, and what it runs *)

Section Ends.

Variable cfg : config.
Variable env : environment.

Lemma end_inv_init : end_inv cfg (init cfg).
Proof.
  unfold end_inv. simpl. repeat split; try discriminate. constructor.
Qed.

(** What one statement of the worker can do to its end and to the list of
    commands. *)
Lemma run_outcomes (status : Z) (s : state) :
  let s' := RSyncThread.run cfg status s in
  (wpc s' = W_done -> wpc s = W_done \/ shutting_down s = true)
  /\ (wpc s' = W_crashed ->
      wpc s = W_crashed \/ Shlex.split (RSyncThread.cmd cfg s) = None)
  /\ (calls s' = calls s
      \/ exists argv, Shlex.split (RSyncThread.cmd cfg s) = Some argv
                      /\ calls s' = (calls s ++ [argv])%list).
Proof.
  unfold RSyncThread.run, shutting_down.
  destruct (wpc s) eqn:Hw; simpl;
    try (rewrite Hw; repeat split; auto; discriminate).
  - destruct (Event.is_set (shutdown_event s)); simpl;
      repeat split; auto; discriminate.
  - destruct (Event.is_set (shutdown_event s)); simpl;
      repeat split; auto; discriminate.
  - destruct (Event.is_set (rsync_event s)); simpl;
      repeat split; auto; discriminate.
  - repeat split; auto; discriminate.
  - repeat split; auto; discriminate.
  - repeat split; auto; discriminate.
  - repeat split; auto; discriminate.
  - destruct (Shlex.split (RSyncThread.cmd cfg s)) as [argv|] eqn:E; simpl.
    + split; [discriminate|]. split; [discriminate|].
      right. exists argv. auto.
    + repeat split; auto; discriminate.
  - repeat split; auto; discriminate.
Qed.

Lemma end_worker (status : Z) (s : state) :
  end_inv cfg s -> end_inv cfg (RSyncThread.run cfg status s).
Proof.
  intros (Hd & Hc & Hall).
  destruct (worker_step_frame cfg status s) as (_ & W2 & W3 & _).
  destruct (run_outcomes status s) as (O1 & O2 & O3).
  unfold end_inv, shutting_down in *.
  rewrite (cmd_thread_options cfg _ _ W3), W2.
  split; [intros E; destruct (O1 E); auto|].
  split; [intros E; destruct (O2 E); auto|].
  destruct O3 as [-> | (argv & Hargv & ->)]; [exact Hall|].
  apply Forall_app. split; [exact Hall|].
  constructor; [exact Hargv|constructor].
Qed.

Lemma end_step (a : action) (s : state) :
  order_inv cfg env s -> end_inv cfg s -> end_inv cfg (step cfg env a s).
Proof.
  intros Hord Hend.
  destruct a as [|status|event|sg]; [| apply end_worker; exact Hend | |].
  - (* main *)
    destruct (order_cases cfg env s Hord) as [Hun | (Hla & Hms & _)].
    + destruct Hun as (Hw & Hs & Hp & Hc & Hr & Ho).
      assert (Hnext : calls (main cfg env s) = []
                      /\ (wpc (main cfg env s) = W_unstarted
                          \/ wpc (main cfg env s) = W_outer)).
      { destruct s as [sd rs mp wp mo to st si ob pr lg cl ra].
        unfold main. simpl in *. subst wp cl.
        destruct mp; simpl; repeat break_match; simpl; auto. }
      destruct Hnext as [Hc' Hw']. unfold end_inv. simpl. rewrite Hc'.
      repeat split; try constructor;
        intros E; destruct Hw' as [Hw' | Hw']; congruence.
    + destruct (step_frame cfg env Main s Hms) as (_ & F2 & F3 & _ & _ & F6).
      destruct (F6 eq_refl) as (K1 & K2 & _).
      destruct Hend as (Hd & Hc & Hall). unfold end_inv.
      rewrite (cmd_thread_options cfg _ _ F2), K1, K2. auto.
  - (* notify *)
    destruct (notify_frame event s) as (N1 & N2 & N3 & N4 & N5 & N6 & N7).
    destruct Hend as (Hd & Hc & Hall). unfold end_inv, shutting_down in *.
    simpl. rewrite (cmd_thread_options cfg _ _ N6), N2, N3, N5. auto.
  - (* signal *)
    assert (Hframe : wpc (deliver sg s) = wpc s
                     /\ shutdown_event (deliver sg s) = shutdown_event s
                     /\ thread_options (deliver sg s) = thread_options s
                     /\ calls (deliver sg s) = calls s).
    { unfold deliver, shutdown, raise_in_main.
      repeat break_match; simpl; auto. }
    destruct Hframe as (D1 & D2 & D3 & D4).
    destruct Hend as (Hd & Hc & Hall). unfold end_inv, shutting_down in *.
    simpl. rewrite (cmd_thread_options cfg _ _ D3), D1, D2, D4. auto.
Qed.

Lemma end_exec (sched : list action) (s : state) :
  order_inv cfg env s -> end_inv cfg s ->
  end_inv cfg (exec cfg env sched s).
Proof.
  revert s. induction sched as [|a sched IH]; intros s Ho He; simpl;
    [exact He|].
  apply IH; [apply order_step; exact Ho|apply end_step; assumption].
Qed.

(** An ended worker thread stays as it is. *)
Lemma ended_worker_step (a : action) (s : state) :
  main_started (mpc s) = true -> worker_ended s = true ->
  wpc (step cfg env a s) = wpc s.
Proof.
  intros Hm He.
  destruct (is_worker a) eqn:Ha.
  - destruct a; try discriminate Ha. simpl.
    unfold worker_ended in He. unfold RSyncThread.run.
    destruct (wpc s) eqn:E; try discriminate He; simpl; exact E.
  - destruct (step_frame cfg env a s Hm) as (_ & _ & _ & _ & _ & F6).
    apply F6. exact Ha.
Qed.

Lemma ended_worker_exec (sched : list action) (s : state) :
  main_started (mpc s) = true -> worker_ended s = true ->
  wpc (exec cfg env sched s) = wpc s.
Proof.
  revert s. induction sched as [|a sched IH]; intros s Hm He; simpl;
    [reflexivity|].
  destruct (step_frame cfg env a s Hm) as (F1 & _).
  assert (Hw := ended_worker_step a s Hm He).
  rewrite IH; [exact Hw|exact F1|].
  unfold worker_ended in *. rewrite Hw. exact He.
Qed.

End Ends.

Lemma reachable_end (cfg : config) (env : environment)
  (sched : list action) :
  end_inv cfg (exec cfg env sched (init cfg)).
Proof. apply end_exec; [apply order_inv_init|apply end_inv_init]. Qed.

(** A state in which the worker is started has [main] past
    [rsync.start()]. *)
Lemma reachable_started (cfg : config) (env : environment)
  (sched : list action) :
  let s := exec cfg env sched (init cfg) in
  wpc s <> W_unstarted ->
  main_started (mpc s) = true
  /\ startup_options cfg env = Some (thread_options s).
Proof.
  cbv zeta. intros Hw.
  destruct (order_cases cfg env _ (reachable_order cfg env sched))
    as [Hun | (Hla & Hms & _)].
  - destruct Hun as (Hw' & _). contradiction.
  - destruct Hla as (_ & _ & Hopts & _). auto.
Qed.



(** X5: every command the worker ever starts, under any schedule, has the
    argument vector of the one command line built from the options fixed at
    startup, the local path and the remote path; it starts with [rsync] and
    [-avP].  No notification, signal or earlier run changes what is run. *)
Theorem X5_commands_fixed (cfg : config) (env : environment)
  (sched : list action) (argv : list string)
  (Hin : In argv (calls (exec cfg env sched (init cfg)))) :
  exists opts,
    startup_options cfg env = Some opts
    /\ Shlex.split (command cfg opts) = Some argv
    /\ exists rest, argv = "rsync" :: "-avP" :: rest.
Proof.
  set (s := exec cfg env sched (init cfg)) in *.
  destruct (reachable_end cfg env sched) as (_ & _ & Hall). fold s in Hall.
  assert (Hw : wpc s <> W_unstarted).
  { intros E.
    destruct (order_cases cfg env _ (reachable_order cfg env sched))
      as [Hun | (Hla & _)].
    - destruct Hun as (_ & _ & _ & Hc & _). fold s in Hc.
      rewrite Hc in Hin. destruct Hin.
    - destruct Hla as (Hw & _). fold s in Hw. contradiction. }
  destruct (reachable_started cfg env sched Hw) as [_ Hopts]. fold s in Hopts.
  rewrite Forall_forall in Hall. specialize (Hall argv Hin).
  exists (thread_options s). split; [exact Hopts|]. split; [exact Hall|].
  change (RSyncThread.cmd cfg s) with (command cfg (thread_options s)) in Hall.
  rewrite command_prefix in Hall.
  destruct (Shlex.read _ _ _ _) as [toks|]; [|discriminate Hall].
  simpl in Hall. injection Hall as <-. exists toks. reflexivity.
Qed.

Lemma X5_commands_fixed_witness :
  exists opts,
    startup_options demo_cfg demo_env = Some opts
    /\ Shlex.split (command demo_cfg opts)
       = Some ["rsync"; "-avP"; "-z"; "/srv/site"; "deploy@web:/var/www"]
    /\ exists rest,
         ["rsync"; "-avP"; "-z"; "/srv/site"; "deploy@web:/var/www"]
         = "rsync" :: "-avP" :: rest.
Proof.
  apply (X5_commands_fixed demo_cfg demo_env
           (repeat Main 13 ++ repeat (Worker 0%Z) 7)).
  left. reflexivity.
Defined.

(** X6: when the command line does not tokenize -- an unclosed quote or a
    dangling backslash in the options -- no rsync command is ever started,
    under any schedule; the worker's first run logs the command line and
    then ends the thread with the exception, seven statements after it was
    started, and the thread stays ended. *)
Theorem X6_unclosed_quote (cfg : config) (env : environment) (opts : string)
  (Hwhich : which_status env = 0%Z)
  (Hopts : startup_options cfg env = Some opts)
  (Hbad : Shlex.split (command cfg opts) = None) :
  (forall sched, calls (exec cfg env sched (init cfg)) = [])
  /\ (let s := worker_alone cfg env 7
                 (exec cfg env (repeat Main 11) (init cfg)) in
      wpc s = W_crashed
      /\ logged s = [colored COLORS.PURPLE "RSyncing";
                     colored COLORS.BOLD (command cfg opts)]
      /\ forall sched, wpc (exec cfg env sched s) = W_crashed).
Proof.
  split.
  - intros sched.
    destruct (calls (exec cfg env sched (init cfg))) as [|argv cl] eqn:E;
      [reflexivity|].
    assert (Hin : In argv (calls (exec cfg env sched (init cfg))))
      by (rewrite E; left; reflexivity).
    set (s := exec cfg env sched (init cfg)) in *.
    destruct (reachable_end cfg env sched) as (_ & _ & Hall). fold s in Hall.
    rewrite Forall_forall in Hall. specialize (Hall argv Hin).
    assert (Hw : wpc s <> W_unstarted).
    { intros Eq.
      destruct (order_cases cfg env _ (reachable_order cfg env sched))
        as [Hun | (Hla & _)].
      - destruct Hun as (_ & _ & _ & Hc & _). fold s in Hc. congruence.
      - destruct Hla as (Hw & _). fold s in Hw. contradiction. }
    destruct (reachable_started cfg env sched Hw) as [_ Hopts']. fold s in Hopts'.
    rewrite Hopts in Hopts'. injection Hopts' as Heq.
    change (RSyncThread.cmd cfg s) with (command cfg (thread_options s)) in Hall.
    rewrite <- Heq, Hbad in Hall. discriminate Hall.
  - cbv zeta. rewrite (startup_exec cfg env opts Hwhich Hopts).
    pose (s1 := set_wpc W_inner_shutdown (started opts)).
    pose (s2 := set_wpc W_inner_rsync s1).
    pose (s3 := set_wpc W_clear s2).
    pose (s4 := set_wpc W_log_rsyncing
                  (set_rsync_event (Event.clear (rsync_event s3)) s3)).
    pose (s5 := set_wpc W_log_cmd (log "RSyncing" COLORS.PURPLE s4)).
    pose (s6 := set_wpc W_call (log (RSyncThread.cmd cfg s5) COLORS.BOLD s5)).
    pose (s7 := set_wpc W_crashed s6).
    assert (E1 : RSyncThread.run cfg 0%Z (started opts) = s1)
      by (apply at_outer; reflexivity).
    assert (E2 : RSyncThread.run cfg 0%Z s1 = s2)
      by (apply at_inner_shutdown; reflexivity).
    assert (E3 : RSyncThread.run cfg 0%Z s2 = s3)
      by (apply at_inner_rsync; reflexivity).
    assert (E4 : RSyncThread.run cfg 0%Z s3 = s4)
      by (apply at_clear; reflexivity).
    assert (E5 : RSyncThread.run cfg 0%Z s4 = s5)
      by (apply at_log_rsyncing; reflexivity).
    assert (E6 : RSyncThread.run cfg 0%Z s5 = s6)
      by (apply at_log_cmd; reflexivity).
    assert (E7 : RSyncThread.run cfg 0%Z s6 = s7).
    { unfold RSyncThread.run.
      change (wpc s6) with W_call. cbv iota.
      change (RSyncThread.cmd cfg s6) with (command cfg opts).
      rewrite Hbad. reflexivity. }
    rewrite !worker_alone_S, E1, E2, E3, E4, E5, E6, E7.
    split; [reflexivity|]. split; [reflexivity|].
    intros sched. apply (ended_worker_exec cfg env sched s7); reflexivity.
Qed.

Lemma X6_unclosed_quote_witness :
  calls (exec quote_cfg demo_env (repeat Main 11 ++ repeat (Worker 0%Z) 40)
           (init quote_cfg)) = [].
Proof.
  apply (X6_unclosed_quote quote_cfg demo_env "--exclude='tmp");
    reflexivity.
Defined.



(** ** Runs and raises *)

Section Paid.

Variable cfg : config.
Variable env : environment.

Lemma paid_inv_init : paid_inv (init cfg).
Proof.
  unfold paid_inv, credit, runs, pending, shutting_down. simpl.
  repeat split; intros; (discriminate || lia).
Qed.

Lemma paid_worker (status : Z) (s : state) :
  paid_inv s -> paid_inv (RSyncThread.run cfg status s).
Proof.
  destruct s as [[sd] [rs] mp wp mo to st si ob pr lg cl ra].
  unfold paid_inv, credit, runs, pending, shutting_down, RSyncThread.run.
  simpl. intros (H1 & H2 & H3).
  destruct wp; simpl in *;
    try (destruct (Shlex.split _); simpl; rewrite ?length_app; simpl);
    destruct sd, rs; simpl in *;
    repeat split; intros; try discriminate; try reflexivity;
    try (specialize (H1 eq_refl eq_refl)); try discriminate;
    try (specialize (H2 eq_refl)); try (specialize (H3 eq_refl)); try lia.
Qed.

Lemma paid_notify (event : fs_event) (s : state) :
  paid_inv s -> paid_inv (notify event s).
Proof.
  destruct s as [[sd] [rs] mp wp mo to st si ob pr lg cl ra].
  unfold paid_inv, credit, runs, pending, shutting_down, notify,
    RSyncEventHandler.dispatch, RSyncEventHandler.on_moved,
    RSyncEventHandler.on_created, RSyncEventHandler.on_deleted,
    RSyncEventHandler.on_modified, RSyncEventHandler.rsync.
  simpl. intros (H1 & H2 & H3).
  destruct ob; simpl; try (repeat split; assumption).
  destruct (event_type_of event); simpl;
    repeat split; intros; try reflexivity;
    try (specialize (H2 H)); try (specialize (H3 H));
    destruct rs; simpl in *; lia.
Qed.

Lemma paid_deliver (sg : signal) (s : state) :
  paid_inv s -> paid_inv (deliver sg s).
Proof.
  assert (Hframe : wpc (deliver sg s) = wpc s
                   /\ shutdown_event (deliver sg s) = shutdown_event s
                   /\ rsync_event (deliver sg s) = rsync_event s
                   /\ calls (deliver sg s) = calls s
                   /\ raises (deliver sg s) = raises s).
  { unfold deliver, shutdown, raise_in_main.
    repeat break_match; simpl; auto 10. }
  destruct Hframe as (D1 & D2 & D3 & D4 & D5).
  unfold paid_inv, credit, runs, pending, shutting_down.
  rewrite D1, D2, D3, D4, D5. auto.
Qed.

Lemma paid_main (s : state) :
  order_inv cfg env s -> paid_inv s -> paid_inv (main cfg env s).
Proof.
  intros Hord.
  assert (Hev : mpc s = M_events -> wpc s = W_unstarted /\ calls s = []).
  { intros E. unfold order_inv in Hord. rewrite E in Hord.
    destruct Hord as ((Hw & _ & _ & Hc & _) & _). auto. }
  clear Hord. revert Hev.
  destruct s as [[sd] [rs] mp wp mo to st si ob pr lg cl ra].
  unfold paid_inv, credit, runs, pending, shutting_down, main,
    RSyncEventHandler.__init__, RSyncEventHandler.rsync,
    RSyncThread.__init__.
  simpl. intros Hev (H1 & H2 & H3).
  destruct mp; simpl in *;
    try (exact (conj H1 (conj H2 H3))).
  - (* line 155 *)
    destruct (which_status env =? 0)%Z; exact (conj H1 (conj H2 H3)).
  - (* lines 163-166 *)
    destruct (rsync_file_opts cfg) as [path|];
      [destruct (PyStr.truthy path);
       [destruct (file_lines env path)|]|];
      exact (conj H1 (conj H2 H3)).
  - (* the events are created *)
    destruct (Hev eq_refl) as [-> ->]. simpl.
    repeat split; intros; (discriminate || lia).
  - (* rsync.start() *)
    repeat split; intros; try discriminate.
    + specialize (H2 H). destruct rs; simpl in *; lia.
    + specialize (H3 H). destruct (spent wp); lia.
  - (* the handler's constructor raises *)
    repeat split; intros; try reflexivity.
    + specialize (H2 H). destruct rs; simpl in *; lia.
    + specialize (H3 H). lia.
  - (* shutdown_event.set() *)
    repeat split; intros; try discriminate.
    destruct sd; simpl in *.
    + specialize (H3 eq_refl). lia.
    + specialize (H2 eq_refl). destruct (spent wp); lia.
Qed.

Lemma paid_exec (sched : list action) (s : state) :
  order_inv cfg env s -> paid_inv s -> paid_inv (exec cfg env sched s).
Proof.
  revert s. induction sched as [|a sched IH]; intros s Ho Hp; simpl;
    [exact Hp|].
  apply IH; [apply order_step; exact Ho|].
  destruct a; simpl.
  - apply paid_main; assumption.
  - apply paid_worker; assumption.
  - apply paid_notify; assumption.
  - apply paid_deliver; assumption.
Qed.

End Paid.

(** X8: under every schedule, as long as the shutdown event is not set the
    number of commands started is at most the number of raises: no run
    without a raise that asked for it.  With shutdown set the worker may
    start one command that no raise asked for, so in every state the number
    of commands started is at most the number of raises plus one. *)
Theorem X8_no_run_without_raise (cfg : config) (env : environment)
  (sched : list action) :
  let s := exec cfg env sched (init cfg) in
  (shutting_down s = false -> runs s <= raises s)
  /\ runs s <= S (raises s).
Proof.
  cbv zeta.
  destruct (paid_exec cfg env sched (init cfg) (order_inv_init cfg env)
              (paid_inv_init cfg)) as (_ & H2 & H3).
  set (s := exec cfg env sched (init cfg)) in *.
  split.
  - intros Hs. specialize (H2 Hs). lia.
  - destruct (shutting_down s) eqn:Hs.
    + specialize (H3 eq_refl). lia.
    + specialize (H2 eq_refl). lia.
Qed.

Lemma X8_no_run_without_raise_witness :
  runs demo_idle <= raises demo_idle.
Proof.
  apply (X8_no_run_without_raise demo_cfg demo_env demo_startup).
  reflexivity.
Defined.

(** ** The options file: edge and error cases *)

Lemma file_opts_fails (cfg : config) (env : environment) (path : string)
  (s : state) :
  rsync_file_opts cfg = Some path -> PyStr.truthy path = true ->
  file_lines env path = None -> mpc s = M_file_opts ->
  step cfg env Main s = set_mpc (M_uncaught IOError) s.
Proof.
  unfold step, main. intros Hf Hp Hl Hm. rewrite Hm, Hf, Hp, Hl. reflexivity.
Qed.

(** X9: the options file is opened only when a non-empty path is given:
    with no path or the empty path the options are the literal string,
    whatever the file system holds, and an empty file leaves them unchanged
    too.  When the file cannot be opened, [main] is left by the exception at
    its second statement: under every schedule no thread is ever started and
    no command run, nothing is printed by the program, and the exit status
    is 1. *)
Theorem X9_options_file_edges (cfg : config) (env : environment) :
  (rsync_file_opts cfg = None \/ rsync_file_opts cfg = Some EmptyString ->
   startup_options cfg env = Some (rsync_options cfg))
  /\ (forall path,
        rsync_file_opts cfg = Some path -> PyStr.truthy path = true ->
        file_lines env path = Some [] ->
        startup_options cfg env = Some (rsync_options cfg))
  /\ (forall path,
        rsync_file_opts cfg = Some path -> PyStr.truthy path = true ->
        file_lines env path = None -> which_status env = 0%Z ->
        (forall sched,
           let s := exec cfg env sched (init cfg) in
           wpc s = W_unstarted /\ observer s = O_none /\ calls s = [])
        /\ (forall sched,
              count is_signal sched = 0 -> 2 <= count is_main sched ->
              let s := exec cfg env sched (init cfg) in
              mpc s = M_uncaught IOError /\ printed s = []
              /\ exit_status s = Some 1%Z)).
Proof.
  split.
  { unfold startup_options. intros [-> | ->]; reflexivity. }
  split.
  { unfold startup_options, merge_options. intros path -> -> ->.
    simpl. rewrite append_nil_r. reflexivity. }
  intros path Hf Hp Hl Hwhich.
  assert (Hnone : startup_options cfg env = None)
    by (unfold startup_options; rewrite Hf, Hp, Hl; reflexivity).
  assert (Hinv : forall sched,
             let s := exec cfg env sched (init cfg) in
             wpc s = W_unstarted /\ observer s = O_none /\ calls s = []).
  { intros sched. cbv zeta.
    destruct (order_cases cfg env _ (reachable_order cfg env sched))
      as [Hun | (Hla & _)].
    - destruct Hun as (Hw & _ & _ & Hc & _ & Ho). auto.
    - destruct Hla as (_ & _ & Hopts & _). congruence. }
  split; [exact Hinv|].
  intros sched Hsig Hmain. cbv zeta.
  rewrite (main_alone cfg env sched (init cfg) Hsig)
    by (intros k; destruct (Hinv (repeat Main k)) as (? & ? & _); auto).
  replace (count is_main sched) with (S (S (count is_main sched - 2))) by lia.
  rewrite exec_repeat_S, (which_found cfg env (init cfg) eq_refl Hwhich).
  rewrite exec_repeat_S.
  rewrite (file_opts_fails cfg env path (set_mpc M_file_opts (init cfg))
             Hf Hp Hl eq_refl).
  rewrite ended_main by reflexivity.
  repeat split.
Qed.

Lemma X9_options_file_edges_witness :
  exit_status (exec file_cfg demo_env (repeat Main 5) (init file_cfg))
  = Some 1%Z.
Proof.
  destruct (X9_options_file_edges file_cfg demo_env) as (_ & _ & H).
  destruct (H "missing.txt" eq_refl eq_refl eq_refl eq_refl) as [_ Hexit].
  apply (Hexit (repeat Main 5)); vm_compute; lia.
Defined.

(** ** Signals outside the try block *)

Section Uncaught.

Variable cfg : config.
Variable env : environment.



End Uncaught.



(** X11: once the worker thread is started, under every schedule, the
    terminate and the interrupt signal are handled alike: neither ever takes
    its default disposition, and the states after the one and after the other
    differ only in the number printed by the handler. *)
Theorem X11_signals_alike (cfg : config) (env : environment)
  (sched : list action)
  (Hstarted : wpc (exec cfg env sched (init cfg)) <> W_unstarted) :
  let s := exec cfg env sched (init cfg) in
  forget_printed (deliver SIGTERM s) = forget_printed (deliver SIGINT s)
  /\ (forall sg sg', mpc (deliver sg s) <> M_default_signal sg')
  /\ (forall sg, main_ended s = false ->
        printed (deliver sg s) = (printed s ++ [caught_message sg])%list)
  /\ caught_message SIGTERM = "Caught signal 15"
  /\ caught_message SIGINT = "Caught signal 2".
Proof.
  cbv zeta. set (s := exec cfg env sched (init cfg)) in *.
  assert (Hord := reachable_order cfg env sched). fold s in Hord.
  assert (Hboth : sigterm_installed s = true /\ sigint_installed s = true
                  /\ forall sg', mpc s <> M_default_signal sg').
  { destruct (order_cases cfg env s Hord) as [Hun | (Hla & _)].
    - destruct Hun as (Hw & _). contradiction.
    - destruct Hla as (_ & _ & _ & Hst & Hsi).
      split; [exact Hst|]. split; [exact Hsi|].
      intros sg' E. unfold order_inv in Hord. rewrite E in Hord.
      destruct Hord as (Hw & _). contradiction. }
  destruct Hboth as (Hst & Hsi & Hnd).
  clearbody s. clear Hord Hstarted.
  destruct s as [sd rs mp wp mo to st si ob pr lg cl ra].
  simpl in Hst, Hsi, Hnd. subst st si.
  unfold deliver, shutdown, raise_in_main, main_ended, installed,
    forget_printed, caught_message.
  simpl.
  split; [destruct mp; reflexivity|].
  split.
  - intros sg sg'. destruct sg; simpl; destruct mp; simpl;
      try discriminate; apply Hnd.
  - split; [|split; reflexivity].
    intros sg Hend. destruct sg; simpl; destruct mp; simpl;
      try discriminate Hend; reflexivity.
Qed.

Lemma X11_signals_alike_witness :
  forget_printed (deliver SIGTERM demo_running)
  = forget_printed (deliver SIGINT demo_running).
Proof.
  apply (X11_signals_alike demo_cfg demo_env
           (repeat Main 13 ++ repeat (Worker 0%Z) 7)).
  discriminate.
Defined.

(** ** Who writes the shared cells *)

(** X12: the shutdown event is written by [main] only, when it creates the
    events and at line 194; the rsync event is cleared by the worker's
    statement of line 121 only (and by its creation), and set only by a
    delivered notification or the handler's constructor; and the list of
    commands grows only at the worker's call. *)
Theorem X12_cell_ownership (cfg : config) (env : environment) (a : action)
  (s : state) :
  (shutdown_event (step cfg env a s) <> shutdown_event s ->
   a = Main /\ (mpc s = M_events \/ mpc s = M_shutdown_set))
  /\ (pending s = true -> pending (step cfg env a s) = false ->
      (is_worker a = true /\ wpc s = W_clear)
      \/ (a = Main /\ mpc s = M_events))
  /\ (pending s = false -> pending (step cfg env a s) = true ->
      (is_notify a = true /\ observer s = O_started)
      \/ (a = Main /\ mpc s = M_handler_new))
  /\ (calls (step cfg env a s) <> calls s ->
      is_worker a = true /\ wpc s = W_call).
Proof.
  destruct a as [|status|event|sg].
  - (* main *)
    destruct s as [[sd] [rs] mp wp mo to st si ob pr lg cl ra].
    unfold step, main, pending, RSyncEventHandler.__init__,
      RSyncEventHandler.rsync, RSyncThread.__init__.
    simpl.
    destruct mp; simpl;
      try (destruct (which_status env =? 0)%Z; simpl);
      try (destruct (rsync_file_opts cfg) as [path|]; simpl;
           [destruct (PyStr.truthy path); simpl;
            [destruct (file_lines env path); simpl|]|]);
      repeat split; intros; auto; try congruence.
  - (* worker *)
    destruct (worker_step_frame cfg status s) as (_ & W2 & _).
    destruct (run_outcomes cfg status s) as (_ & _ & O3).
    simpl. split; [intros H; contradiction|].
    assert (Hflag : forall b,
               pending s = b -> pending (RSyncThread.run cfg status s) = negb b ->
               b = true /\ wpc s = W_clear).
    { destruct s as [sd [rs] mp wp mo to st si ob pr lg cl ra].
      unfold RSyncThread.run, pending. simpl. intros b <-.
      destruct wp; simpl; repeat break_match; simpl;
        destruct rs; simpl; intros H; try discriminate H; auto. }
    split; [intros Hp Hp'; left; split; [reflexivity|];
            apply (Hflag true Hp Hp')|].
    split; [intros Hp Hp'; destruct (Hflag false Hp Hp'); discriminate|].
    intros Hc. split; [reflexivity|].
    destruct s as [sd rs mp wp mo to st si ob pr lg cl ra].
    unfold RSyncThread.run in Hc. simpl in *.
    destruct wp; simpl in Hc; try reflexivity; exfalso; apply Hc;
      repeat break_match; reflexivity.
  - (* notify *)
    destruct (notify_frame event s) as (_ & _ & N3 & _ & N5 & _).
    destruct (notify_frame2 event s) as (_ & _ & _ & M4 & _).
    simpl. split; [intros H; contradiction|].
    split.
    + intros Hp Hp'. exfalso.
      destruct (observer s) eqn:Ho;
        try (rewrite M4 in Hp' by discriminate; congruence).
      unfold notify, RSyncEventHandler.dispatch in Hp'. rewrite Ho in Hp'.
      destruct (event_type_of event); discriminate Hp'.
    + split; [|intros H; contradiction].
      intros Hp Hp'. left. split; [reflexivity|].
      destruct (observer s) eqn:Ho; try reflexivity;
        rewrite M4 in Hp' by discriminate; congruence.
  - (* signal *)
    assert (Hframe : shutdown_event (deliver sg s) = shutdown_event s
                     /\ rsync_event (deliver sg s) = rsync_event s
                     /\ calls (deliver sg s) = calls s).
    { unfold deliver, shutdown, raise_in_main.
      repeat break_match; simpl; auto. }
    destruct Hframe as (D1 & D2 & D3). simpl. unfold pending.
    rewrite D1, D2, D3.
    repeat split; intros; congruence.
Qed.

Lemma X12_cell_ownership_witness :
  (is_worker (Worker 0%Z) = true /\ wpc demo_taking = W_clear)
  \/ (Worker 0%Z = Main /\ mpc demo_taking = M_events).
Proof.
  destruct (X12_cell_ownership demo_cfg demo_env (Worker 0%Z) demo_taking)
    as (_ & H & _).
  apply H; reflexivity.
Defined.

(** ** Shutdown during a run *)

Section Winding.

Variable cfg : config.
Variable env : environment.

(** With shutdown set, a worker at the end of a run can only go on to the
    outer test and from there to the end of [run]. *)
Lemma winding_step (a : action) (s : state) :
  main_started (mpc s) = true -> shutting_down s = true ->
  wpc s = W_running \/ wpc s = W_outer \/ wpc s = W_done ->
  let s' := step cfg env a s in
  wpc s' = W_running \/ wpc s' = W_outer \/ wpc s' = W_done.
Proof.
  intros Hm Hs Hw.
  destruct (is_worker a) eqn:Ha.
  - destruct a as [|status|event|sg]; try discriminate Ha. simpl.
    unfold RSyncThread.run. unfold shutting_down in Hs.
    destruct Hw as [Hw | [Hw | Hw]]; rewrite Hw; simpl; rewrite ?Hs; auto.
  - destruct (step_frame cfg env a s Hm) as (_ & _ & _ & _ & _ & F6).
    destruct (F6 Ha) as (K1 & _). simpl. rewrite K1. exact Hw.
Qed.

Lemma winding_exec (sched : list action) (s : state) :
  main_started (mpc s) = true -> shutting_down s = true ->
  wpc s = W_running \/ wpc s = W_outer \/ wpc s = W_done ->
  let s' := exec cfg env sched s in
  wpc s' = W_running \/ wpc s' = W_outer \/ wpc s' = W_done.
Proof.
  revert s. induction sched as [|a sched IH]; intros s Hm Hs Hw; simpl;
    [exact Hw|].
  destruct (step_frame cfg env a s Hm) as (F1 & _ & F3 & _).
  apply IH; [exact F1|exact (F3 Hs)|apply winding_step; assumption].
Qed.

End Winding.

(** X13: when the shutdown event is set while the command runs, or is seen
    at the outer test of line 117, the run in flight ends, no further command
    is started under any schedule, a pending signal stays pending and is
    never consumed, and [run] has returned after two more worker statements.
    From any point of the worker, once shutdown is set at most one further
    command is started. *)
Theorem X13_shutdown_during_run (cfg : config) (env : environment)
  (s : state) (sched : list action)
  (Hmain : main_started (mpc s) = true)
  (Hshut : shutting_down s = true) :
  let s' := exec cfg env sched s in
  runs s' <= S (runs s)
  /\ (wpc s = W_running \/ wpc s = W_outer ->
      calls s' = calls s
      /\ (pending s = true -> pending s' = true)
      /\ (2 <= count is_worker sched -> wpc s' = W_done)).
Proof.
  cbv zeta.
  destruct (shutdown_exec cfg env sched s Hmain Hshut) as [Hruns _].
  split; [exact Hruns|].
  intros Hw.
  assert (Hsp : spent (wpc s) = true)
    by (destruct Hw as [-> | ->]; reflexivity).
  destruct (spent_exec cfg env sched s Hmain Hshut Hsp) as (S1 & S2 & S3 & S4).
  split; [exact S2|]. split; [exact S3|].
  intros Hn.
  assert (Hend : worker_ended (exec cfg env sched s) = true).
  { apply S4. destruct Hw as [-> | ->]; simpl; lia. }
  assert (Hwind : wpc s = W_running \/ wpc s = W_outer \/ wpc s = W_done)
    by (destruct Hw; auto).
  destruct (winding_exec cfg env sched s Hmain Hshut Hwind)
    as [E | [E | E]]; [| |exact E];
    unfold worker_ended in Hend; rewrite E in Hend; discriminate Hend.
Qed.

Lemma X13_shutdown_during_run_witness :
  calls (exec demo_cfg demo_env (repeat (Worker 0%Z) 5)
           (exec demo_cfg demo_env [Signal SIGINT; Main] demo_running))
  = calls (exec demo_cfg demo_env [Signal SIGINT; Main] demo_running).
Proof.
  destruct (X13_shutdown_during_run demo_cfg demo_env
              (exec demo_cfg demo_env [Signal SIGINT; Main] demo_running)
              (repeat (Worker 0%Z) 5) eq_refl eq_refl) as [_ H].
  destruct (H (or_introl eq_refl)) as (Hc & _). exact Hc.
Defined.

(** ** One option on each line *)



(** ** The log of the worker *)

Section Log.

Variable cfg : config.
Variable env : environment.

Lemma occurrences_snoc (l x : string) (log : list string) :
  occurrences l (log ++ [x])
  = occurrences l log + (if string_dec x l then 1 else 0).
Proof.
  unfold occurrences. rewrite count_occ_app. simpl.
  destruct (string_dec x l); reflexivity.
Qed.

Lemma occurrences_snoc_same (l : string) (log : list string) :
  occurrences l (log ++ [l]) = S (occurrences l log).
Proof.
  rewrite occurrences_snoc. destruct (string_dec l l); [lia|congruence].
Qed.

Lemma occurrences_snoc_le (l x : string) (log : list string) :
  occurrences l log <= occurrences l (log ++ [x]).
Proof. rewrite occurrences_snoc. lia. Qed.

Lemma log_inv_init : log_inv cfg (init cfg).
Proof. unfold log_inv, runs. simpl. lia. Qed.

Lemma log_worker (status : Z) (s : state) :
  log_inv cfg s -> log_inv cfg (RSyncThread.run cfg status s).
Proof.
  intros [H1 H2].
  destruct (worker_step_frame cfg status s) as (_ & _ & W3 & _).
  unfold log_inv. rewrite (cmd_thread_options cfg _ _ W3).
  set (c := colored COLORS.BOLD (RSyncThread.cmd cfg s)) in *.
  set (r := colored COLORS.PURPLE "RSyncing") in *.
  unfold RSyncThread.run, runs in *.
  destruct (wpc s) eqn:Hw; simpl; rewrite ?Hw; try (split; assumption).
  - destruct (Event.is_set (shutdown_event s)); simpl; split; assumption.
  - destruct (Event.is_set (shutdown_event s)); simpl; split; assumption.
  - destruct (Event.is_set (rsync_event s)); simpl; split; assumption.
  - fold r. rewrite occurrences_snoc_same.
    assert (Hle := occurrences_snoc_le c r (logged s)). split; lia.
  - fold c. rewrite occurrences_snoc_same.
    assert (Hle := occurrences_snoc_le r c (logged s)). split; lia.
  - destruct (Shlex.split (RSyncThread.cmd cfg s)); simpl;
      rewrite ?length_app; simpl; split; lia.
Qed.

Lemma log_notify (event : fs_event) (s : state) :
  log_inv cfg s -> log_inv cfg (notify event s).
Proof.
  intros [H1 H2].
  destruct (notify_frame event s) as (_ & N2 & _ & _ & N5 & N6 & _).
  unfold log_inv, runs in *. rewrite (cmd_thread_options cfg _ _ N6), N2, N5.
  assert (Hlog : logged (notify event s) = logged s
                 \/ exists x, logged (notify event s)
                              = (logged s ++ [x])%list).
  { unfold notify, RSyncEventHandler.dispatch.
    destruct (observer s); auto.
    destruct (event_type_of event); right; eexists; reflexivity. }
  destruct Hlog as [-> | [x ->]]; [split; assumption|].
  assert (L1 := occurrences_snoc_le
                  (colored COLORS.BOLD (RSyncThread.cmd cfg s)) x (logged s)).
  assert (L2 := occurrences_snoc_le
                  (colored COLORS.PURPLE "RSyncing") x (logged s)).
  split; lia.
Qed.

Lemma log_deliver (sg : signal) (s : state) :
  log_inv cfg s -> log_inv cfg (deliver sg s).
Proof.
  assert (Hframe : wpc (deliver sg s) = wpc s
                   /\ thread_options (deliver sg s) = thread_options s
                   /\ logged (deliver sg s) = logged s
                   /\ calls (deliver sg s) = calls s).
  { unfold deliver, shutdown, raise_in_main.
    repeat break_match; simpl; auto. }
  destruct Hframe as (D1 & D2 & D3 & D4).
  unfold log_inv, runs. rewrite (cmd_thread_options cfg _ _ D2), D1, D3, D4.
  auto.
Qed.

Lemma log_main (s : state) :
  order_inv cfg env s -> log_inv cfg s -> log_inv cfg (main cfg env s).
Proof.
  intros Hord [H1 H2].
  destruct (order_cases cfg env s Hord) as [Hun | (Hla & Hms & _)].
  - (* nothing has run: nothing is owed *)
    destruct Hun as (Hw & _ & _ & Hc & _).
    assert (Hnext : calls (main cfg env s) = []
                    /\ (wpc (main cfg env s) = W_unstarted
                        \/ wpc (main cfg env s) = W_outer)).
    { destruct s as [sd rs mp wp mo to st si ob pr lg cl ra].
      unfold main. simpl in *. subst wp cl.
      destruct mp; simpl; repeat break_match; simpl; auto. }
    destruct Hnext as [Hc' Hw']. unfold log_inv, runs. rewrite Hc'.
    destruct Hw' as [-> | ->]; simpl; lia.
  - destruct (step_frame cfg env Main s Hms) as (_ & F2 & _ & _ & _ & F6).
    destruct (F6 eq_refl) as (K1 & K2 & _).
    assert (Hlog : logged (main cfg env s) = logged s).
    { destruct s as [sd rs mp wp mo to st si ob pr lg cl ra].
      unfold main. simpl.
      destruct mp; simpl; repeat break_match; reflexivity. }
    unfold log_inv, runs in *. simpl in F2, K1, K2.
    rewrite (cmd_thread_options cfg _ _ F2), K1, K2, Hlog. auto.
Qed.

Lemma log_exec (sched : list action) (s : state) :
  order_inv cfg env s -> log_inv cfg s -> log_inv cfg (exec cfg env sched s).
Proof.
  revert s. induction sched as [|a sched IH]; intros s Ho Hl; simpl;
    [exact Hl|].
  apply IH; [apply order_step; exact Ho|].
  destruct a; simpl.
  - apply log_main; assumption.
  - apply log_worker; assumption.
  - apply log_notify; assumption.
  - apply log_deliver; assumption.
Qed.

End Log.

(** X15: under every schedule, each command the worker has started was
    announced in the log before it started: the log holds at least as many
    [RSyncing] lines and at least as many lines with the command line as
    commands were started. *)
Theorem X15_run_logged_first (cfg : config) (env : environment)
  (sched : list action) :
  let s := exec cfg env sched (init cfg) in
  runs s <= occurrences (colored COLORS.PURPLE "RSyncing") (logged s)
  /\ runs s
     <= occurrences (colored COLORS.BOLD (command cfg (thread_options s)))
          (logged s).
Proof.
  cbv zeta.
  destruct (log_exec cfg env sched (init cfg) (order_inv_init cfg env)
              (log_inv_init cfg)) as [H1 H2].
  change (RSyncThread.cmd cfg (exec cfg env sched (init cfg)))
    with (command cfg (thread_options (exec cfg env sched (init cfg)))) in H1.
  split; lia.
Qed.

(** ** The wait loop *)

(** X16: with neither event set, the wait loop of lines 117-119 has no
    effect besides the worker's own control point: whatever the number of
    statements, nothing is logged, started or written, and every third
    statement finds the process in the state it was in. *)
Theorem X16_idle_polling (cfg : config) (env : environment) (s : state)
  (n : nat)
  (Hpending : pending s = false)
  (Hshut : shutting_down s = false)
  (Hwait : waiting (wpc s) = true) :
  worker_alone cfg env n s = set_wpc (wpc (worker_alone cfg env n s)) s
  /\ waiting (wpc (worker_alone cfg env n s)) = true
  /\ (wpc s <> W_outer -> worker_alone cfg env (3 * n) s = s).
Proof.
  assert (Hidle : forall m t,
             pending t = false -> shutting_down t = false ->
             waiting (wpc t) = true ->
             exists p, waiting p = true
                       /\ worker_alone cfg env m t = set_wpc p t).
  { induction m as [|m IH]; intros t Hp Hs Hw.
    - exists (wpc t). split; [exact Hw|]. destruct t; reflexivity.
    - rewrite worker_alone_S.
      destruct (idle_step cfg 0%Z t Hp Hs Hw) as [p [Hwp ->]].
      destruct (IH (set_wpc p t) Hp Hs Hwp) as [p' [Hwp' ->]].
      exists p'. split; [exact Hwp'|reflexivity]. }
  destruct (Hidle n s Hpending Hshut Hwait) as [p [Hp Hex]].
  split; [rewrite Hex; reflexivity|]. split; [rewrite Hex; exact Hp|].
  intros Hne.
  assert (H3 : forall t, pending t = false -> shutting_down t = false ->
                 waiting (wpc t) = true -> wpc t <> W_outer ->
                 worker_alone cfg env 3 t = t).
  { intros t Hpt Hst Hwt Hnt.
    destruct t as [[sd] [rs] mp wp mo to st si ob pr lg cl ra].
    unfold pending, shutting_down in *. simpl in *. subst sd rs.
    destruct wp; try discriminate Hwt; try congruence; reflexivity. }
  clear Hex p Hp. induction n as [|n IH]; [reflexivity|].
  replace (3 * S n) with (3 + 3 * n) by lia.
  rewrite worker_alone_add, (H3 s Hpending Hshut Hwait Hne). exact IH.
Qed.

Lemma X16_idle_polling_witness :
  worker_alone demo_cfg demo_env (3 * 7) demo_idle = demo_idle.
Proof.
  apply (X16_idle_polling demo_cfg demo_env demo_idle 7);
    try reflexivity; discriminate.
Defined.
